(** * Firestarter demo: session, file index and preview cache

    A shallow embedding of the React components of the demo
    (AuthCard, App, UploadCard, AccountCard, FilesGallery and the older
    UploadsCard) together with the properties of the local index /
    remote reconciliation layer.

    The handlers are asynchronous JavaScript functions.  They are embedded
    in a state-and-exception monad [Js] over a [World] that holds the
    browser resources the handlers touch (localStorage entries, the
    registry of object URLs, a chronological trace of observable effects)
    and the React state of every component.  A handler is run to
    completion; interleaving of two handlers at their [await] points is
    outside the model.  The remote storage client is an oracle: each
    method answers a call with a value or with an error. *)

From Stdlib Require Import ZArith String Ascii List Lia.
From stdpp Require Import base option list gmap strings.

Local Open Scope string_scope.
Local Open Scope Z_scope.

(** ** Data of the SDK (types imported from firestarter-sdk) *)

Record PipeAccount := {
  username : string;
  password : string;
  userId : string;
  userAppKey : string
}.

(** [UploadResult] is the FileRecord of the index; [uploadedAt] is a
    timestamp. *)
Record UploadResult := {
  fileId : string;
  fileName : string;
  size : Z;
  uploadedAt : Z
}.

(** Amounts are kept in the smallest unit; their rendering ([toFixed]) is
    presentation only. *)
Record Balance := {
  pipe : Z;
  sol : Z;
  publicKey : string
}.

Record PublicLink := { shareUrl : string }.

Inductive PipeErrorCode :=
| USERNAME_EXISTS
| INVALID_CREDENTIALS
| UNAUTHORIZED
| NETWORK_ERROR
| OTHER_CODE (c : string).

(** A thrown value: [err.code] may be absent, [err.message] is a string
    whose empty value is falsy for [||]. *)
Record JsError := {
  code : option PipeErrorCode;
  message : string
}.

(** [{ valid, error? }] as returned by the SDK validators; the field
    [error] is [Sdk_error] here. *)
Record Validation := {
  valid : bool;
  Sdk_error : option string
}.

Record File := {
  name : string;
  content : list Byte.byte
}.

Abbreviation Bytes := (list Byte.byte).
Abbreviation ObjectURL := nat.

(** The remote storage client.  Every method either resolves or rejects;
    [uploadFile] also reports the progress values it passes to
    [onProgress] before settling. *)
Record PipeClient := {
  login : string → string → JsError + PipeAccount;
  createAccount : string → string → JsError + PipeAccount;
  getBalance : PipeAccount → JsError + Balance;
  uploadFile : PipeAccount → File → string → list Z * (JsError + UploadResult);
  downloadFile : PipeAccount → string → JsError + Bytes;
  deleteFile : PipeAccount → string → JsError + unit;
  createPublicLink : PipeAccount → string → JsError + PublicLink
}.

(** What the application takes from the SDK besides the client: the
    storage key of [new PipeFileStorage()], the key chosen by
    [PipeFileStorage.forAccount], and the two credential validators. *)
Record Sdk := {
  defaultStorageKey : string;
  forAccountKey : PipeAccount → string;
  validateUsername : string → Validation;
  validatePassword : string → Validation
}.

(** ** Observable effects *)

Inductive RemoteCall :=
| CallLogin (u p : string)
| CallCreateAccount (u p : string)
| CallGetBalance (a : PipeAccount)
| CallUploadFile (a : PipeAccount) (f : File) (nm : string)
| CallDownloadFile (a : PipeAccount) (nm : string)
| CallDeleteFile (a : PipeAccount) (nm : string)
| CallCreatePublicLink (a : PipeAccount) (nm : string).

Inductive Event :=
| Remote (c : RemoteCall)
| StorageList (key : string)
| StorageAdd (key : string) (r : UploadResult)
| StorageRemove (key : string) (id : string)
| AccountSave (a : PipeAccount)
| AccountClear
| Dispatch (event_name : string)
| CreateObjectURL (u : ObjectURL)
| RevokeObjectURL (u : ObjectURL)
| SaveAs (file_name : string) (u : ObjectURL)
| Alert (msg : string)
| ConsoleError (msg : string) (err : JsError).

(** ** React state of the components *)

Module AppState.
Record t := {
  account : option PipeAccount;
  loading : bool
}.
Definition init : t := {| account := None; loading := true |}.
End AppState.

Module AuthCardState.
(** [error] is [None] only after [setError] received [undefined]. *)
Record t := {
  username : string;
  password : string;
  isCreating : bool;
  loading : bool;
  error : option string
}.
Definition init : t :=
  {| username := ""; password := ""; isCreating := false;
     loading := false; error := Some "" |}.
End AuthCardState.

Module UploadCardState.
Record t := {
  uploading : bool;
  progress : Z;
  error : string;
  uploadedFile : option UploadResult
}.
Definition init : t :=
  {| uploading := false; progress := 0; error := ""; uploadedFile := None |}.
End UploadCardState.

Module AccountCardState.
Record t := {
  balance : option Balance;
  loadingBalance : bool
}.
Definition init : t := {| balance := None; loadingBalance := true |}.
End AccountCardState.

Module FilesGalleryState.
Record t := {
  files : list UploadResult;
  downloading : option string;
  selectedFile : option UploadResult;
  shareLink : string;
  linkCopied : bool;
  imagePreviews : gmap string ObjectURL
}.
Definition init : t :=
  {| files := []; downloading := None; selectedFile := None;
     shareLink := ""; linkCopied := false; imagePreviews := ∅ |}.
End FilesGalleryState.

Module UploadsCardState.
Record t := {
  files : list UploadResult;
  balance : option Balance;
  loadingBalance : bool;
  selectedFile : option UploadResult;
  downloading : option string;
  shareLink : string
}.
Definition init : t :=
  {| files := []; balance := None; loadingBalance := true;
     selectedFile := None; downloading := None; shareLink := "" |}.
End UploadsCardState.

(** ** The world *)

Record World := {
  localStorage : gmap string (list UploadResult);
  savedAccount : option PipeAccount;
  objectURLs : gset ObjectURL;
  nextURL : ObjectURL;
  trace : list Event;
  app : AppState.t;
  authCard : AuthCardState.t;
  uploadCard : UploadCardState.t;
  accountCard : AccountCardState.t;
  filesGallery : FilesGalleryState.t;
  uploadsCard : UploadsCardState.t
}.

Definition fresh_world : World :=
  {| localStorage := ∅; savedAccount := None; objectURLs := ∅; nextURL := 0%nat;
     trace := [];
     app := AppState.init; authCard := AuthCardState.init;
     uploadCard := UploadCardState.init; accountCard := AccountCardState.init;
     filesGallery := FilesGalleryState.init; uploadsCard := UploadsCardState.init |}.

Definition with_localStorage (v : gmap string (list UploadResult)) (w : World) : World :=
  {| localStorage := v; savedAccount := savedAccount w; objectURLs := objectURLs w;
     nextURL := nextURL w; trace := trace w; app := app w; authCard := authCard w;
     uploadCard := uploadCard w; accountCard := accountCard w;
     filesGallery := filesGallery w; uploadsCard := uploadsCard w |}.

Definition with_savedAccount (v : option PipeAccount) (w : World) : World :=
  {| localStorage := localStorage w; savedAccount := v; objectURLs := objectURLs w;
     nextURL := nextURL w; trace := trace w; app := app w; authCard := authCard w;
     uploadCard := uploadCard w; accountCard := accountCard w;
     filesGallery := filesGallery w; uploadsCard := uploadsCard w |}.

Definition with_objectURLs (v : gset ObjectURL) (n : ObjectURL) (w : World) : World :=
  {| localStorage := localStorage w; savedAccount := savedAccount w; objectURLs := v;
     nextURL := n; trace := trace w; app := app w; authCard := authCard w;
     uploadCard := uploadCard w; accountCard := accountCard w;
     filesGallery := filesGallery w; uploadsCard := uploadsCard w |}.

Definition with_trace (v : list Event) (w : World) : World :=
  {| localStorage := localStorage w; savedAccount := savedAccount w;
     objectURLs := objectURLs w; nextURL := nextURL w; trace := v; app := app w;
     authCard := authCard w; uploadCard := uploadCard w; accountCard := accountCard w;
     filesGallery := filesGallery w; uploadsCard := uploadsCard w |}.

Definition with_app (v : AppState.t) (w : World) : World :=
  {| localStorage := localStorage w; savedAccount := savedAccount w;
     objectURLs := objectURLs w; nextURL := nextURL w; trace := trace w; app := v;
     authCard := authCard w; uploadCard := uploadCard w; accountCard := accountCard w;
     filesGallery := filesGallery w; uploadsCard := uploadsCard w |}.

Definition with_authCard (v : AuthCardState.t) (w : World) : World :=
  {| localStorage := localStorage w; savedAccount := savedAccount w;
     objectURLs := objectURLs w; nextURL := nextURL w; trace := trace w; app := app w;
     authCard := v; uploadCard := uploadCard w; accountCard := accountCard w;
     filesGallery := filesGallery w; uploadsCard := uploadsCard w |}.

Definition with_uploadCard (v : UploadCardState.t) (w : World) : World :=
  {| localStorage := localStorage w; savedAccount := savedAccount w;
     objectURLs := objectURLs w; nextURL := nextURL w; trace := trace w; app := app w;
     authCard := authCard w; uploadCard := v; accountCard := accountCard w;
     filesGallery := filesGallery w; uploadsCard := uploadsCard w |}.

Definition with_accountCard (v : AccountCardState.t) (w : World) : World :=
  {| localStorage := localStorage w; savedAccount := savedAccount w;
     objectURLs := objectURLs w; nextURL := nextURL w; trace := trace w; app := app w;
     authCard := authCard w; uploadCard := uploadCard w; accountCard := v;
     filesGallery := filesGallery w; uploadsCard := uploadsCard w |}.

Definition with_filesGallery (v : FilesGalleryState.t) (w : World) : World :=
  {| localStorage := localStorage w; savedAccount := savedAccount w;
     objectURLs := objectURLs w; nextURL := nextURL w; trace := trace w; app := app w;
     authCard := authCard w; uploadCard := uploadCard w; accountCard := accountCard w;
     filesGallery := v; uploadsCard := uploadsCard w |}.

Definition with_uploadsCard (v : UploadsCardState.t) (w : World) : World :=
  {| localStorage := localStorage w; savedAccount := savedAccount w;
     objectURLs := objectURLs w; nextURL := nextURL w; trace := trace w; app := app w;
     authCard := authCard w; uploadCard := uploadCard w; accountCard := accountCard w;
     filesGallery := filesGallery w; uploadsCard := v |}.

(** ** The monad of handlers *)

Inductive Completion (A : Type) :=
| Normal (a : A)
| Thrown (e : JsError).
Arguments Normal {A} a.
Arguments Thrown {A} e.

Definition Js (A : Type) : Type := World → Completion A * World.

#[global] Instance Js_ret : MRet Js := λ A a w, (Normal a, w).

#[global] Instance Js_bind : MBind Js := λ A B k c w,
  match c w with
  | (Normal a, w') => k a w'
  | (Thrown e, w') => (Thrown e, w')
  end.

Definition throw {A} (e : JsError) : Js A := λ w, (Thrown e, w).

(** [try { body } catch (err) { handler }] *)
Definition try_catch {A} (body : Js A) (handler : JsError → Js A) : Js A := λ w,
  match body w with
  | (Normal a, w') => (Normal a, w')
  | (Thrown e, w') => handler e w'
  end.

(** [try { body } finally { fin }] : [fin] runs on both exits and the
    completion of [body] is kept when [fin] completes normally. *)
Definition finally {A} (body : Js A) (fin : Js unit) : Js A := λ w,
  match body w with
  | (r, w') =>
      match fin w' with
      | (Normal _, w'') => (r, w'')
      | (Thrown e, w'') => (Thrown e, w'')
      end
  end.

Definition try_catch_finally {A} (body : Js A) (handler : JsError → Js A)
    (fin : Js unit) : Js A :=
  finally (try_catch body handler) fin.

(** [await p] for a promise that is already settled by the oracle. *)
Definition await {A} (r : JsError + A) : Js A :=
  match r with
  | inl e => throw e
  | inr a => mret a
  end.

Definition emit (e : Event) : Js unit := λ w,
  (Normal tt, with_trace (trace w ++ [e]) w).

Definition skip : Js unit := mret tt.

(** [for (const x of xs) body] with the loop-carried local [acc]. *)
Fixpoint for_of {A S} (xs : list A) (body : S → A → Js S) (acc : S) : Js S :=
  match xs with
  | [] => mret acc
  | x :: xs' => acc' ← body acc x; for_of xs' body acc'
  end.

(** [a || b] on strings. *)
Definition or_else (a b : string) : string :=
  if String.eqb a "" then b else a.

Definition gets {A} (f : World → A) : Js A := λ w, (Normal (f w), w).
Definition modify (f : World → World) : Js unit := λ w, (Normal tt, f w).

(** A call to the remote client: the call is observable, then the promise
    settles. *)
Definition remote {A} (c : RemoteCall) (r : JsError + A) : Js A :=
  emit (Remote c);; await r.

(** ** Browser resources *)

(** [URL.createObjectURL(blob)]: a fresh URL that stays live until revoked. *)
Definition createObjectURL (blob : Bytes) : Js ObjectURL := λ w,
  let u := nextURL w in
  (Normal u,
   with_trace (trace w ++ [CreateObjectURL u])
     (with_objectURLs ({[u]} ∪ objectURLs w) (S u) w)).

Definition revokeObjectURL (u : ObjectURL) : Js unit := λ w,
  (Normal tt,
   with_trace (trace w ++ [RevokeObjectURL u])
     (with_objectURLs (objectURLs w ∖ {[u]}) (nextURL w) w)).

(** ** Local stores of the SDK *)

Module PipeFileStorage.
(** Modelled from the spec: [listFiles] of the SDK's [PipeFileStorage],
    the durable per-key record store of section 4.2.  A storage object is
    its key; the call returns the sequence stored under the key, in
    insertion order, and the empty sequence when nothing was stored. *)
Definition listFiles (key : string) : Js (list UploadResult) := λ w,
  (Normal (default [] (localStorage w !! key)),
   with_trace (trace w ++ [StorageList key]) w).

(** Modelled from the spec: [addFile] of the SDK's [PipeFileStorage]: it
    appends the record and writes the sequence back before it returns.
    The specification leaves the case of an id already present open; the
    model appends there too. *)
Definition addFile (key : string) (r : UploadResult) : Js unit := λ w,
  (Normal tt,
   with_trace (trace w ++ [StorageAdd key r])
     (with_localStorage
        (<[key := (default [] (localStorage w !! key) ++ [r])%list]> (localStorage w)) w)).

(** Modelled from the spec: [removeFile] of the SDK's [PipeFileStorage]:
    it drops the record with the given id, is a no-op when there is
    none, and writes the sequence back before it returns. *)
Definition removeFile (key : string) (id : string) : Js unit := λ w,
  (Normal tt,
   with_trace (trace w ++ [StorageRemove key id])
     (with_localStorage
        (<[key := filter (λ f, fileId f ≠ id) (default [] (localStorage w !! key))]>
           (localStorage w)) w)).
End PipeFileStorage.

Module PipeAccountStorage.
(** Modelled from the spec: [load] of the SDK's [PipeAccountStorage], the
    single persisted account of section 4.1. *)
Definition load : Js (option PipeAccount) := gets savedAccount.

(** Modelled from the spec: [save] of the SDK's [PipeAccountStorage]; it
    overwrites any prior value. *)
Definition save (a : PipeAccount) : Js unit := λ w,
  (Normal tt, with_trace (trace w ++ [AccountSave a]) (with_savedAccount (Some a) w)).

(** Modelled from the spec: [clear] of the SDK's [PipeAccountStorage]; it
    removes the persisted account unconditionally. *)
Definition clear : Js unit := λ w,
  (Normal tt, with_trace (trace w ++ [AccountClear]) (with_savedAccount None w)).
End PipeAccountStorage.

(** ** Strings *)

(** [toLowerCase] on the ASCII letters. *)
Definition lower_ascii (c : ascii) : ascii :=
  let n := nat_of_ascii c in
  if Nat.leb 65 n && Nat.leb n 90 then ascii_of_nat (n + 32) else c.

Fixpoint toLowerCase (s : string) : string :=
  match s with
  | EmptyString => EmptyString
  | String c s' => String (lower_ascii c) (toLowerCase s')
  end.

(** [s.split('.')]: the segments between dots; never empty. *)
Fixpoint split_dot (s : string) : list string :=
  match s with
  | EmptyString => [EmptyString]
  | String c s' =>
      if Ascii.eqb c "."%char then EmptyString :: split_dot s'
      else match split_dot s' with
           | seg :: rest => String c seg :: rest
           | [] => [String c EmptyString]
           end
  end.

(** [xs.pop()]: the last element, [undefined] on the empty array. *)
Definition pop (xs : list string) : option string := last xs.

(** [a || ''] for a possibly undefined string. *)
Definition or_empty (a : option string) : string :=
  match a with
  | Some s => s
  | None => ""
  end.

Definition imageExtensions : list string :=
  ["jpg"; "jpeg"; "png"; "gif"; "webp"; "svg"].

Definition includes (xs : list string) (x : string) : bool :=
  existsb (String.eqb x) xs.

Definition isImageFile (filename : string) : bool :=
  let ext := pop (split_dot (toLowerCase filename)) in
  includes imageExtensions (or_empty ext).

(** ** formatFileSize *)

(** The floating-point part of [formatFileSize] is left to the JavaScript
    engine: [floor_log k bytes] stands for
    [Math.floor(Math.log(bytes) / Math.log(k))] and [round2 bytes k i] for
    the printed value of [Math.round(bytes / Math.pow(k, i) * 100) / 100]. *)
Record JsMath := {
  floor_log : Z → Z → Z;
  round2 : Z → Z → Z → string
}.

Definition sizes : list string := ["Bytes"; "KB"; "MB"; "GB"].

(** [sizes[i]] inside a string concatenation. *)
Definition sizes_at (i : Z) : string :=
  if i <? 0 then "undefined"
  else default "undefined" (sizes !! Z.to_nat i).

Definition formatFileSize (m : JsMath) (bytes : Z) : string :=
  if bytes =? 0 then "0 Bytes"
  else
    let k := 1024 in
    let i := floor_log m k bytes in
    round2 m bytes k i +:+ " " +:+ sizes_at i.

(** ** UploadCard *)

Module UploadCard.
Import UploadCardState.

Definition setUploading (v : bool) : Js unit := modify (λ w,
  let s := uploadCard w in
  with_uploadCard {| uploading := v; progress := progress s; error := error s;
                     uploadedFile := uploadedFile s |} w).
Definition setProgress (v : Z) : Js unit := modify (λ w,
  let s := uploadCard w in
  with_uploadCard {| uploading := uploading s; progress := v; error := error s;
                     uploadedFile := uploadedFile s |} w).
Definition setError (v : string) : Js unit := modify (λ w,
  let s := uploadCard w in
  with_uploadCard {| uploading := uploading s; progress := progress s; error := v;
                     uploadedFile := uploadedFile s |} w).
Definition setUploadedFile (v : option UploadResult) : Js unit := modify (λ w,
  let s := uploadCard w in
  with_uploadCard {| uploading := uploading s; progress := progress s;
                     error := error s; uploadedFile := v |} w).

(** The calls [onProgress: (percent) => setProgress(percent)] made by
    the client while the upload runs. *)
Definition onProgress_calls (reports : list Z) : Js unit :=
  for_of reports (λ _ percent, setProgress percent) tt.

Section Props.
Variable account : PipeAccount.
Variable client : PipeClient.

(** [new PipeFileStorage(`firestarter_files_${account.username}`)] *)
Definition fileStorage : string := "firestarter_files_" +:+ username account.

(** [client.uploadFile(account, file, file.name, { onProgress })] *)
Definition uploadFile_call (file : File) : Js UploadResult :=
  let '(reports, settled) := uploadFile client account file (name file) in
  emit (Remote (CallUploadFile account file (name file)));;
  onProgress_calls reports;;
  await settled.

(** [e.target.files?.[0]] is the argument. *)
Definition handleFileSelect (selected : option File) : Js unit :=
  match selected with
  | None => mret tt
  | Some file =>
      setError "";;
      setUploading true;;
      setProgress 0;;
      setUploadedFile None;;
      try_catch_finally
        (result ← uploadFile_call file;
         PipeFileStorage.addFile fileStorage result;;
         setUploadedFile (Some result);;
         emit (Dispatch "fileUploaded"))
        (λ err, setError (or_else (message err) "Upload failed"))
        (setUploading false)
  end.
End Props.
End UploadCard.

(** ** AccountCard *)

Module AccountCard.
Import AccountCardState.

Definition setBalance (v : option Balance) : Js unit := modify (λ w,
  with_accountCard {| balance := v;
                      loadingBalance := loadingBalance (accountCard w) |} w).
Definition setLoadingBalance (v : bool) : Js unit := modify (λ w,
  with_accountCard {| balance := balance (accountCard w); loadingBalance := v |} w).

Section Props.
Variable account : PipeAccount.
Variable client : PipeClient.

Definition loadBalance : Js unit :=
  try_catch_finally
    (bal ← remote (CallGetBalance account) (getBalance client account);
     setBalance (Some bal))
    (λ err, emit (ConsoleError "Failed to load balance:" err))
    (setLoadingBalance false).

(** The listener registered for ['fileUploaded']. *)
Definition handleFileUploaded : Js unit := loadBalance.
End Props.
End AccountCard.

(** ** FilesGallery *)

Module FilesGallery.
Import FilesGalleryState.

Definition setFiles (v : list UploadResult) : Js unit := modify (λ w,
  let s := filesGallery w in
  with_filesGallery {| files := v; downloading := downloading s;
                       selectedFile := selectedFile s; shareLink := shareLink s;
                       linkCopied := linkCopied s;
                       imagePreviews := imagePreviews s |} w).
Definition setDownloading (v : option string) : Js unit := modify (λ w,
  let s := filesGallery w in
  with_filesGallery {| files := files s; downloading := v;
                       selectedFile := selectedFile s; shareLink := shareLink s;
                       linkCopied := linkCopied s;
                       imagePreviews := imagePreviews s |} w).
Definition setSelectedFile (v : option UploadResult) : Js unit := modify (λ w,
  let s := filesGallery w in
  with_filesGallery {| files := files s; downloading := downloading s;
                       selectedFile := v; shareLink := shareLink s;
                       linkCopied := linkCopied s;
                       imagePreviews := imagePreviews s |} w).
Definition setShareLink (v : string) : Js unit := modify (λ w,
  let s := filesGallery w in
  with_filesGallery {| files := files s; downloading := downloading s;
                       selectedFile := selectedFile s; shareLink := v;
                       linkCopied := linkCopied s;
                       imagePreviews := imagePreviews s |} w).
Definition setLinkCopied (v : bool) : Js unit := modify (λ w,
  let s := filesGallery w in
  with_filesGallery {| files := files s; downloading := downloading s;
                       selectedFile := selectedFile s; shareLink := shareLink s;
                       linkCopied := v; imagePreviews := imagePreviews s |} w).
Definition setImagePreviews (v : gmap string ObjectURL) : Js unit := modify (λ w,
  let s := filesGallery w in
  with_filesGallery {| files := files s; downloading := downloading s;
                       selectedFile := selectedFile s; shareLink := shareLink s;
                       linkCopied := linkCopied s; imagePreviews := v |} w).

Section Props.
Variable sdk : Sdk.
Variable confirm : string → bool.
Variable account : PipeAccount.
Variable client : PipeClient.

(** [PipeFileStorage.forAccount(account)] *)
Definition fileStorage : string := forAccountKey sdk account.

(** One iteration of the preview loop; [previews] is the object under
    construction. *)
Definition loadPreview (previews : gmap string ObjectURL) (file : UploadResult)
    : Js (gmap string ObjectURL) :=
  if isImageFile (fileName file) then
    try_catch
      (uint8Array ← remote (CallDownloadFile account (fileName file))
                      (downloadFile client account (fileName file));
       url ← createObjectURL uint8Array;
       mret (<[fileId file := url]> previews))
      (λ err,
         emit (ConsoleError ("Failed to load preview for " +:+ fileName file) err);;
         mret previews)
  else mret previews.

Definition loadFiles : Js unit :=
  storedFiles ← PipeFileStorage.listFiles fileStorage;
  setFiles storedFiles;;
  previews ← for_of storedFiles loadPreview ∅;
  setImagePreviews previews.

(** The listener registered for ['fileUploaded']. *)
Definition handleFileUploaded : Js unit := loadFiles.

Definition handleDownload (file : UploadResult) : Js unit :=
  setDownloading (Some (fileId file));;
  try_catch_finally
    (uint8Array ← remote (CallDownloadFile account (fileName file))
                    (downloadFile client account (fileName file));
     url ← createObjectURL uint8Array;
     emit (SaveAs (fileName file) url);;
     revokeObjectURL url)
    (λ err, emit (Alert (or_else (message err) "Download failed")))
    (setDownloading None).

(** [imagePreviews] is the state seen by the render that installed the
    handler, which is the state at the time the handler starts. *)
Definition handleDelete (file : UploadResult) : Js unit :=
  if negb (confirm ("Delete " +:+ fileName file +:+ "?")) then mret tt
  else
    rendered ← gets (λ w, imagePreviews (filesGallery w));
    try_catch
      (remote (CallDeleteFile account (fileName file))
              (deleteFile client account (fileName file));;
       PipeFileStorage.removeFile fileStorage (fileId file);;
       match rendered !! fileId file with
       | Some url => revokeObjectURL url
       | None => skip
       end;;
       loadFiles)
      (λ err, emit (Alert (or_else (message err) "Delete failed"))).

Definition generateShareLink (file : UploadResult) : Js unit :=
  setSelectedFile (Some file);;
  setLinkCopied false;;
  try_catch
    (publicLink ← remote (CallCreatePublicLink account (fileName file))
                    (createPublicLink client account (fileName file));
     setShareLink (shareUrl publicLink))
    (λ err,
       emit (Alert (or_else (message err) "Failed to create share link"));;
       setSelectedFile None).
End Props.
End FilesGallery.

(** ** UploadsCard *)

Module UploadsCard.
Import UploadsCardState.

Definition setFiles (v : list UploadResult) : Js unit := modify (λ w,
  let s := uploadsCard w in
  with_uploadsCard {| files := v; balance := balance s;
                      loadingBalance := loadingBalance s;
                      selectedFile := selectedFile s;
                      downloading := downloading s; shareLink := shareLink s |} w).
Definition setBalance (v : option Balance) : Js unit := modify (λ w,
  let s := uploadsCard w in
  with_uploadsCard {| files := files s; balance := v;
                      loadingBalance := loadingBalance s;
                      selectedFile := selectedFile s;
                      downloading := downloading s; shareLink := shareLink s |} w).
Definition setLoadingBalance (v : bool) : Js unit := modify (λ w,
  let s := uploadsCard w in
  with_uploadsCard {| files := files s; balance := balance s; loadingBalance := v;
                      selectedFile := selectedFile s;
                      downloading := downloading s; shareLink := shareLink s |} w).
Definition setDownloading (v : option string) : Js unit := modify (λ w,
  let s := uploadsCard w in
  with_uploadsCard {| files := files s; balance := balance s;
                      loadingBalance := loadingBalance s;
                      selectedFile := selectedFile s;
                      downloading := v; shareLink := shareLink s |} w).

Section Props.
Variable sdk : Sdk.
Variable confirm : string → bool.
Variable account : PipeAccount.
Variable client : PipeClient.

(** [const fileStorage = new PipeFileStorage()] at module level: one
    object for every account. *)
Definition fileStorage : string := defaultStorageKey sdk.

Definition loadFiles : Js unit :=
  storedFiles ← PipeFileStorage.listFiles fileStorage;
  setFiles storedFiles.

Definition loadBalance : Js unit :=
  try_catch_finally
    (bal ← remote (CallGetBalance account) (getBalance client account);
     setBalance (Some bal))
    (λ err, emit (ConsoleError "Failed to load balance:" err))
    (setLoadingBalance false).

(** The listener registered for ['fileUploaded']. *)
Definition handleFileUploaded : Js unit := loadFiles;; loadBalance.

Definition handleDownload (file : UploadResult) : Js unit :=
  setDownloading (Some (fileId file));;
  try_catch_finally
    (blob ← remote (CallDownloadFile account (fileName file))
              (downloadFile client account (fileName file));
     url ← createObjectURL blob;
     emit (SaveAs (fileName file) url);;
     revokeObjectURL url)
    (λ err, emit (Alert (or_else (message err) "Download failed")))
    (setDownloading None).

Definition handleDelete (file : UploadResult) : Js unit :=
  if negb (confirm ("Delete " +:+ fileName file +:+ "?")) then mret tt
  else
    try_catch
      (remote (CallDeleteFile account (fileId file))
              (deleteFile client account (fileId file));;
       PipeFileStorage.removeFile fileStorage (fileId file);;
       loadFiles;;
       loadBalance)
      (λ err, emit (Alert (or_else (message err) "Delete failed"))).
End Props.
End UploadsCard.

(** ** App *)

Module App.
Import AppState.

Definition setAccount (v : option PipeAccount) : Js unit := modify (λ w,
  with_app {| account := v; loading := loading (app w) |} w).
Definition setLoading (v : bool) : Js unit := modify (λ w,
  with_app {| account := account (app w); loading := v |} w).

Section Client.
Variable client : PipeClient.

(** The effect run once at mount. *)
Definition mount : Js unit :=
  saved ← PipeAccountStorage.load;
  match saved with
  | Some a => setAccount (Some a)
  | None => skip
  end;;
  setLoading false.

Definition handleLogin (u p : string) : Js unit :=
  acc ← remote (CallLogin u p) (login client u p);
  setAccount (Some acc);;
  PipeAccountStorage.save acc.

Definition handleCreateAccount (u p : string) : Js unit :=
  acc ← remote (CallCreateAccount u p) (createAccount client u p);
  setAccount (Some acc);;
  PipeAccountStorage.save acc.

Definition handleLogout : Js unit :=
  setAccount None;;
  PipeAccountStorage.clear.
End Client.
End App.

(** ** AuthCard *)

Module AuthCard.
Import AuthCardState.

Definition setLoading (v : bool) : Js unit := modify (λ w,
  let s := authCard w in
  with_authCard {| username := username s; password := password s;
                   isCreating := isCreating s; loading := v; error := error s |} w).
Definition setError (v : option string) : Js unit := modify (λ w,
  let s := authCard w in
  with_authCard {| username := username s; password := password s;
                   isCreating := isCreating s; loading := loading s; error := v |} w).

(** [if (err.code)]: a code is truthy unless it is the empty string. *)
Definition truthy_code (c : option PipeErrorCode) : option PipeErrorCode :=
  match c with
  | Some (OTHER_CODE s) => if String.eqb s "" then None else c
  | _ => c
  end.

Definition errorMessage_of (err : JsError) : string :=
  let errorMessage := or_else (message err) "Authentication failed" in
  match truthy_code (code err) with
  | None => errorMessage
  | Some USERNAME_EXISTS =>
      "Username already exists. Please try a different username or login instead."
  | Some INVALID_CREDENTIALS =>
      "Invalid username or password. Please check your credentials."
  | Some UNAUTHORIZED => "Authentication failed. Please try again."
  | Some NETWORK_ERROR =>
      "Network error. Please check your connection and try again."
  | Some (OTHER_CODE _) => message err
  end.

Section Props.
Variable sdk : Sdk.
Variable onLogin : string → string → Js unit.
Variable onCreate : string → string → Js unit.

(** The form fields are those of the render that installed the
    handler, which is the state at the time the handler starts. *)
Definition handleSubmit : Js unit :=
  rendered ← gets authCard;
  setError (Some "");;
  let usernameValidation := validateUsername sdk (username rendered) in
  if negb (valid usernameValidation) then
    setError (Sdk_error usernameValidation)
  else
    let passwordValidation := validatePassword sdk (password rendered) in
    if negb (valid passwordValidation) then
      setError (Sdk_error passwordValidation)
    else
      setLoading true;;
      try_catch_finally
        (if isCreating rendered
         then onCreate (username rendered) (password rendered)
         else onLogin (username rendered) (password rendered))
        (λ err,
           emit (ConsoleError "Auth error:" err);;
           setError (Some (errorMessage_of err)))
        (setLoading false).
End Props.
End AuthCard.

(** * Properties *)

Definition is_dispatch (e : Event) : bool :=
  match e with
  | Dispatch _ => true
  | _ => false
  end.

(** ** The extension of a file name, in the words of the specification *)

(** The text after the last dot; a name without a dot has no extension. *)
Fixpoint extension (s : string) : option string :=
  match s with
  | EmptyString => None
  | String c s' =>
      match extension s' with
      | Some e => Some e
      | None => if Ascii.eqb c "."%char then Some s' else None
      end
  end.

Definition has_image_extension (filename : string) : bool :=
  match extension filename with
  | Some e => includes imageExtensions (toLowerCase e)
  | None => false
  end.

(** ** Vocabulary of the preview cache *)

(** The events one iteration of the preview loop can append. *)
Definition is_preview_event (e : Event) : bool :=
  match e with
  | Remote (CallDownloadFile _ _) => true
  | CreateObjectURL _ => true
  | ConsoleError _ _ => true
  | _ => false
  end.

(** The events that follow the removal in a delete handled by the
    gallery: the release of the deleted file's handle and the reload. *)
Definition is_reload_event (e : Event) : bool :=
  match e with
  | RevokeObjectURL _ => true
  | StorageList _ => true
  | _ => is_preview_event e
  end.

Definition is_delete_call (e : Event) : bool :=
  match e with
  | Remote (CallDeleteFile _ _) => true
  | _ => false
  end.

(** A record for which the loop materializes a handle: the code takes it
    for an image and the download of its bytes resolves. *)
Definition previewable (account : PipeAccount) (client : PipeClient)
    (f : UploadResult) : Prop :=
  isImageFile (fileName f) = true ∧
  ∃ bytes, downloadFile client account (fileName f) = inr bytes.

(** What the preview loop leaves alone, and how it moves the rest. *)
Record preview_frame (w w' : World) : Prop := {
  frame_trace : ∃ evs, trace w' = (trace w ++ evs)%list ∧
                       Forall (λ e, is_preview_event e = true) evs;
  frame_localStorage : localStorage w' = localStorage w;
  frame_savedAccount : savedAccount w' = savedAccount w;
  frame_objectURLs : objectURLs w ⊆ objectURLs w';
  frame_nextURL : (nextURL w ≤ nextURL w')%nat;
  frame_fresh : ∀ u, u ∈ objectURLs w' → u ∈ objectURLs w ∨ (nextURL w ≤ u < nextURL w')%nat;
  frame_app : app w' = app w;
  frame_authCard : authCard w' = authCard w;
  frame_uploadCard : uploadCard w' = uploadCard w;
  frame_accountCard : accountCard w' = accountCard w;
  frame_filesGallery : filesGallery w' = filesGallery w;
  frame_uploadsCard : uploadsCard w' = uploadsCard w
}.

(** The listing a component obtains from a storage key. *)
Definition listing (key : string) (w : World) : list UploadResult :=
  default [] (localStorage w !! key).

(** ** Where an error ends up *)



(** ** Sample data *)

Definition alice : PipeAccount :=
  {| username := "alice123"; password := "Passw0rd!1";
     userId := "u-alice"; userAppKey := "k-alice" |}.

Definition bob : PipeAccount :=
  {| username := "bob45678"; password := "Passw0rd!2";
     userId := "u-bob"; userAppKey := "k-bob" |}.

Definition photo : UploadResult :=
  {| fileId := "id-photo"; fileName := "photo.png"; size := 2048; uploadedAt := 1 |}.

Definition notes : UploadResult :=
  {| fileId := "id-notes"; fileName := "notes.txt"; size := 10; uploadedAt := 2 |}.

Definition broken : UploadResult :=
  {| fileId := "id-broken"; fileName := "broken.JPG"; size := 7; uploadedAt := 3 |}.


Definition offline : JsError :=
  {| code := Some NETWORK_ERROR; message := "fetch failed" |}.

(** README: user names and passwords have 8 or more characters. *)
Definition min8 (field : string) (s : string) : Validation :=
  if Nat.leb 8 (String.length s) then {| valid := true; Sdk_error := None |}
  else {| valid := false;
          Sdk_error := Some (field +:+ " must be at least 8 characters") |}.

Definition sample_sdk : Sdk :=
  {| defaultStorageKey := "pipe_files";
     forAccountKey := λ a, "firestarter_files_" +:+ username a;
     validateUsername := min8 "Username";
     validatePassword := min8 "Password" |}.

(** A client on which everything succeeds, except downloads of
    [broken.JPG]. *)
Definition sample_client : PipeClient :=
  {| login := λ u p, inr {| username := u; password := p;
                            userId := "u-" +:+ u; userAppKey := "k-" +:+ u |};
     createAccount := λ u p, inr {| username := u; password := p;
                                    userId := "u-" +:+ u; userAppKey := "k-" +:+ u |};
     getBalance := λ a, inr {| pipe := 100; sol := 1; publicKey := "pk-" +:+ username a |};
     uploadFile := λ a f nm,
       ([50; 100], inr {| fileId := "id-" +:+ nm; fileName := nm;
                          size := Z.of_nat (length (content f)); uploadedAt := 9 |});
     downloadFile := λ a nm,
       if String.eqb nm "broken.JPG" then inl offline else inr [];
     deleteFile := λ a nm, inr tt;
     createPublicLink := λ a nm, inr {| shareUrl := "https://share/" +:+ nm |} |}.

(** A client whose every call is rejected with [offline]. *)
Definition failing_client : PipeClient :=
  {| login := λ u p, inl offline;
     createAccount := λ u p, inl offline;
     getBalance := λ a, inl offline;
     uploadFile := λ a f nm, ([50], inl offline);
     downloadFile := λ a nm, inl offline;
     deleteFile := λ a nm, inl offline;
     createPublicLink := λ a nm, inl offline |}.

Definition always_confirm : string → bool := λ _, true.

(** Two engines that differ on what they compute at zero. *)
Definition math_a : JsMath :=
  {| floor_log := λ k b, Z.log2 b / Z.log2 k;
     round2 := λ b k i, if b =? 0 then "NaN" else "n" |}.

Definition math_b : JsMath :=
  {| floor_log := λ k b, if b =? 0 then -1 else Z.log2 b / Z.log2 k;
     round2 := λ b k i, if b =? 0 then "Infinity" else "n" |}.

(** A submitted form whose user name is too short. *)
Definition short_name_world : World :=
  with_authCard
    {| AuthCardState.username := "bob"; AuthCardState.password := "Passw0rd!1";
       AuthCardState.isCreating := false; AuthCardState.loading := false;
       AuthCardState.error := Some "" |}
    fresh_world.

(** Alice's index with an image, an image whose download fails, and a
    text file. *)
Definition gallery_world : World :=
  with_localStorage {[ "firestarter_files_alice123" := [photo; broken; notes] ]}
    fresh_world.


(** Alice's index with one image, after the gallery was mounted. *)
Definition photo_world : World :=
  with_localStorage {[ "firestarter_files_alice123" := [photo] ]} fresh_world.

Definition mounted_world : World :=
  snd (FilesGallery.loadFiles sample_sdk alice sample_client photo_world).


(** A filled-in login form. *)
Definition login_form_world : World :=
  with_authCard
    {| AuthCardState.username := "alice123"; AuthCardState.password := "Passw0rd!1";
       AuthCardState.isCreating := false; AuthCardState.loading := false;
       AuthCardState.error := Some "" |}
    fresh_world.

(** A device whose default storage entry holds one record. *)
Definition shared_world : World :=
  with_localStorage {[ "pipe_files" := [photo] ]} fresh_world.

Definition photo_file : File := {| name := "photo.png"; content := [] |}.

(** ** Page reload and projections of the trace *)

(** A page reload: the React state of every component starts over and the
    document's object URLs are gone; what is in localStorage stays. *)
Definition reload_page (w : World) : World :=
  {| localStorage := localStorage w; savedAccount := savedAccount w;
     objectURLs := ∅; nextURL := nextURL w; trace := trace w;
     app := AppState.init; authCard := AuthCardState.init;
     uploadCard := UploadCardState.init; accountCard := AccountCardState.init;
     filesGallery := FilesGalleryState.init; uploadsCard := UploadsCardState.init |}.

(** The calls to the remote client among some events, in order. *)
Definition remote_calls (evs : list Event) : list RemoteCall :=
  omap (λ e, match e with Remote c => Some c | _ => None end) evs.

(** The names the gallery takes for images, in listing order. *)
Definition image_names (files : list UploadResult) : list string :=
  fileName <$> filter (λ f, isImageFile (fileName f) = true) files.

(** A filled-in account-creation form. *)
Definition create_form_world : World :=
  with_authCard
    {| AuthCardState.username := "alice123"; AuthCardState.password := "Passw0rd!1";
       AuthCardState.isCreating := true; AuthCardState.loading := false;
       AuthCardState.error := Some "" |}
    fresh_world.

(** The world in which the gallery's delete handler starts its reload:
    the call was made, the record removed, and the handle the render had
    for the file, if any, revoked. *)
Definition after_removal (key : string) (account : PipeAccount)
    (file : UploadResult) (w : World) : World :=
  let w1 := snd (emit (Remote (CallDeleteFile account (fileName file))) w) in
  let w2 := snd (PipeFileStorage.removeFile key (fileId file) w1) in
  match FilesGalleryState.imagePreviews (filesGallery w) !! fileId file with
  | Some url => snd (revokeObjectURL url w2)
  | None => w2
  end.

(** ** Concrete runs *)

Example isImageFile_photo : isImageFile "photo.png" = true.
Proof. reflexivity. Qed.

Example isImageFile_upper : isImageFile "broken.JPG" = true.
Proof. reflexivity. Qed.

Example isImageFile_notes : isImageFile "notes.txt" = false.
Proof. reflexivity. Qed.

Example isImageFile_two_dots : isImageFile "archive.png.zip" = false.
Proof. reflexivity. Qed.

Example isImageFile_bare : isImageFile "png" = true.
Proof. reflexivity. Qed.

Example extension_bare : extension "png" = None.
Proof. reflexivity. Qed.

Example extension_two_dots : extension "archive.png.zip" = Some "zip".
Proof. reflexivity. Qed.

Example formatFileSize_zero_a : formatFileSize math_a 0 = "0 Bytes".
Proof. reflexivity. Qed.

Example formatFileSize_2048 : formatFileSize math_a 2048 = "n KB".
Proof. reflexivity. Qed.

(** ** Proof support *)

Ltac js_unfold :=
  unfold try_catch_finally, finally, try_catch, remote, await, throw, emit,
    modify, gets, skip, mbind, Js_bind, mret, Js_ret in *.

Ltac js_simpl := js_unfold; cbn [fst snd] in *.

Arguments FilesGallery.loadFiles : simpl never.
Arguments UploadsCard.loadBalance : simpl never.
Arguments UploadCard.onProgress_calls : simpl never.

Lemma or_else_nonempty (a b : string) : b ≠ "" → or_else a b ≠ "".
Proof.
  intros Hb. unfold or_else. destruct (String.eqb a "") eqn:E; [exact Hb|].
  intros ->. discriminate.
Qed.

(** ** formatFileSize *)

(** C10 (the three components carry the same [formatFileSize]): at input
    0 the function answers "0 Bytes" from its guard, and on
    non-negative sizes its result does not depend on what the engine
    computes for the logarithm and the division at non-positive
    arguments: that branch is only reached with a strictly positive
    size. *)
Theorem C10_formatFileSize_zero_guard (m1 m2 : JsMath) (bytes : Z) :
  0 ≤ bytes →
  (∀ k b, 0 < b → floor_log m1 k b = floor_log m2 k b) →
  (∀ k b i, 0 < b → round2 m1 b k i = round2 m2 b k i) →
  formatFileSize m1 0 = "0 Bytes" ∧
  formatFileSize m1 bytes = formatFileSize m2 bytes.
Proof.
  intros Hb Hlog Hround. split; [reflexivity|].
  unfold formatFileSize.
  destruct (bytes =? 0) eqn:E; [reflexivity|].
  apply Z.eqb_neq in E.
  assert (0 < bytes) as Hpos by lia.
  rewrite (Hlog _ _ Hpos), (Hround _ _ _ Hpos). reflexivity.
Qed.

Lemma C10_formatFileSize_zero_guard_witness :
  formatFileSize math_a 0 = "0 Bytes" ∧
  formatFileSize math_a 0 = formatFileSize math_b 0.
Proof.
  apply (C10_formatFileSize_zero_guard math_a math_b 0).
  - lia.
  - intros k b Hpos. simpl. destruct (b =? 0) eqn:E; [lia|reflexivity].
  - intros k b i Hpos. simpl. destruct (b =? 0) eqn:E; [lia|reflexivity].
Defined.

(** The two engines do differ at zero, so the agreement above is owed to
    the guard. *)
Example engines_differ_at_zero :
  floor_log math_a 1024 0 ≠ floor_log math_b 1024 0 ∧
  round2 math_a 0 1024 0 ≠ round2 math_b 0 1024 0.
Proof. split; discriminate. Qed.

(** ** AuthCard *)

Lemma handleSubmit_invalid_username sdk onLogin onCreate (w : World) :
  valid (validateUsername sdk (AuthCardState.username (authCard w))) = false →
  AuthCard.handleSubmit sdk onLogin onCreate w =
    (Normal tt,
     with_authCard
       {| AuthCardState.username := AuthCardState.username (authCard w);
          AuthCardState.password := AuthCardState.password (authCard w);
          AuthCardState.isCreating := AuthCardState.isCreating (authCard w);
          AuthCardState.loading := AuthCardState.loading (authCard w);
          AuthCardState.error :=
            Sdk_error (validateUsername sdk (AuthCardState.username (authCard w))) |}
       w).
Proof.
  intros Hu. unfold AuthCard.handleSubmit, AuthCard.setError. js_simpl.
  rewrite Hu. reflexivity.
Qed.

Lemma handleSubmit_invalid_password sdk onLogin onCreate (w : World) :
  valid (validateUsername sdk (AuthCardState.username (authCard w))) = true →
  valid (validatePassword sdk (AuthCardState.password (authCard w))) = false →
  AuthCard.handleSubmit sdk onLogin onCreate w =
    (Normal tt,
     with_authCard
       {| AuthCardState.username := AuthCardState.username (authCard w);
          AuthCardState.password := AuthCardState.password (authCard w);
          AuthCardState.isCreating := AuthCardState.isCreating (authCard w);
          AuthCardState.loading := AuthCardState.loading (authCard w);
          AuthCardState.error :=
            Sdk_error (validatePassword sdk (AuthCardState.password (authCard w))) |}
       w).
Proof.
  intros Hu Hp. unfold AuthCard.handleSubmit, AuthCard.setError. js_simpl.
  rewrite Hu, Hp. reflexivity.
Qed.

(** C7: when the user name or the password fails its format check,
    [handleSubmit] (with the login and create handlers of App as props)
    returns at once: the trace is unchanged, so no call reached the
    remote client, the persisted account, the file index and App's state
    are unchanged, and the validator's message is the displayed error. *)
Theorem C7_validation_before_network sdk client (w : World) :
  valid (validateUsername sdk (AuthCardState.username (authCard w))) = false ∨
  valid (validatePassword sdk (AuthCardState.password (authCard w))) = false →
  let r := AuthCard.handleSubmit sdk (App.handleLogin client)
             (App.handleCreateAccount client) w in
  fst r = Normal tt ∧
  trace (snd r) = trace w ∧
  savedAccount (snd r) = savedAccount w ∧
  localStorage (snd r) = localStorage w ∧
  app (snd r) = app w ∧
  AuthCardState.error (authCard (snd r)) =
    (if valid (validateUsername sdk (AuthCardState.username (authCard w)))
     then Sdk_error (validatePassword sdk (AuthCardState.password (authCard w)))
     else Sdk_error (validateUsername sdk (AuthCardState.username (authCard w)))).
Proof.
  intros Hbad r. subst r.
  destruct (valid (validateUsername sdk (AuthCardState.username (authCard w)))) eqn:Hu.
  - destruct Hbad as [Hbad|Hp]; [discriminate|].
    rewrite (handleSubmit_invalid_password _ _ _ _ Hu Hp). simpl. tauto.
  - rewrite (handleSubmit_invalid_username _ _ _ _ Hu). simpl. tauto.
Qed.

Lemma C7_validation_before_network_witness :
  valid (validateUsername sample_sdk
           (AuthCardState.username (authCard short_name_world))) = false ∧
  trace (snd (AuthCard.handleSubmit sample_sdk (App.handleLogin sample_client)
                (App.handleCreateAccount sample_client) short_name_world)) = [] ∧
  AuthCardState.error
    (authCard (snd (AuthCard.handleSubmit sample_sdk (App.handleLogin sample_client)
                      (App.handleCreateAccount sample_client) short_name_world)))
  = Some "Username must be at least 8 characters".
Proof.
  assert (valid (validateUsername sample_sdk
                   (AuthCardState.username (authCard short_name_world))) = false)
    as Hbad by reflexivity.
  pose proof (C7_validation_before_network sample_sdk sample_client
                short_name_world (or_introl Hbad)) as H.
  cbv zeta in H. destruct H as (_ & Htrace & _ & _ & _ & Herr).
  split; [exact Hbad|]. split; [exact Htrace|]. exact Herr.
Defined.

(** With well-formed credentials the login call is made: validation is
    what keeps the request back. *)
Lemma handleSubmit_valid_calls_login sdk client (w : World) :
  valid (validateUsername sdk (AuthCardState.username (authCard w))) = true →
  valid (validatePassword sdk (AuthCardState.password (authCard w))) = true →
  AuthCardState.isCreating (authCard w) = false →
  ∃ rest,
    trace (snd (AuthCard.handleSubmit sdk (App.handleLogin client)
                  (App.handleCreateAccount client) w))
    = (trace w ++ Remote (CallLogin (AuthCardState.username (authCard w))
                            (AuthCardState.password (authCard w))) :: rest)%list.
Proof.
  intros Hu Hp Hc.
  unfold AuthCard.handleSubmit, AuthCard.setError, AuthCard.setLoading,
    App.handleLogin, App.setAccount, PipeAccountStorage.save.
  js_simpl. rewrite Hu, Hp. simpl. rewrite Hc.
  destruct (login client _ _) as [err|acc]; simpl.
  - eexists. rewrite <- app_assoc. reflexivity.
  - eexists. rewrite <- app_assoc. reflexivity.
Qed.

(** ** UploadCard *)

(** The progress callbacks touch nothing but [progress]. *)
Lemma progress_reports_frame (reports : list Z) (w : World) :
  ∃ p,
    UploadCard.onProgress_calls reports w =
      (Normal tt,
       with_uploadCard
         {| UploadCardState.uploading := UploadCardState.uploading (uploadCard w);
            UploadCardState.progress := p;
            UploadCardState.error := UploadCardState.error (uploadCard w);
            UploadCardState.uploadedFile := UploadCardState.uploadedFile (uploadCard w) |}
         w).
Proof.
  unfold UploadCard.onProgress_calls.
  revert w. induction reports as [|r reports IH]; intros w.
  - exists (UploadCardState.progress (uploadCard w)).
    destruct w as [? ? ? ? ? ? ? [] ? ? ?]. reflexivity.
  - cbn [for_of]. unfold mbind, Js_bind.
    set (w1 := snd (UploadCard.setProgress r w)).
    change (UploadCard.setProgress r w) with (Normal tt, w1).
    destruct (IH w1) as [p Hp]. rewrite Hp. exists p. reflexivity.
Qed.

(** What one upload attempt does when the remote call is rejected. *)
Lemma UploadCard_handleFileSelect_rejected account client (file : File)
    (err : JsError) (w : World) :
  snd (uploadFile client account file (name file)) = inl err →
  let r := UploadCard.handleFileSelect account client (Some file) w in
  fst r = Normal tt ∧
  localStorage (snd r) = localStorage w ∧
  trace (snd r) = (trace w ++ [Remote (CallUploadFile account file (name file))])%list ∧
  UploadCardState.error (uploadCard (snd r)) = or_else (message err) "Upload failed" ∧
  UploadCardState.uploadedFile (uploadCard (snd r)) = None.
Proof.
  intros Hrej r. subst r.
  unfold UploadCard.handleFileSelect, UploadCard.uploadFile_call.
  destruct (uploadFile client account file (name file)) as [reports settled].
  simpl in Hrej. subst settled.
  unfold UploadCard.setError, UploadCard.setUploading, UploadCard.setUploadedFile,
    UploadCard.setProgress, PipeFileStorage.addFile.
  js_simpl.
  match goal with
  | |- context [UploadCard.onProgress_calls reports ?w1] =>
      destruct (progress_reports_frame reports w1) as [p Hp]; rewrite Hp
  end.
  simpl. repeat split.
Qed.

(** What one upload attempt does when the remote call resolves. *)
Lemma UploadCard_handleFileSelect_resolved account client (file : File)
    (result : UploadResult) (w : World) :
  snd (uploadFile client account file (name file)) = inr result →
  let r := UploadCard.handleFileSelect account client (Some file) w in
  let key := UploadCard.fileStorage account in
  fst r = Normal tt ∧
  localStorage (snd r) =
    <[key := (default [] (localStorage w !! key) ++ [result])%list]> (localStorage w) ∧
  trace (snd r) =
    (trace w ++ [Remote (CallUploadFile account file (name file));
                 StorageAdd key result;
                 Dispatch "fileUploaded"])%list ∧
  UploadCardState.error (uploadCard (snd r)) = "" ∧
  UploadCardState.uploadedFile (uploadCard (snd r)) = Some result.
Proof.
  intros Hok r key. subst r key.
  unfold UploadCard.handleFileSelect, UploadCard.uploadFile_call.
  destruct (uploadFile client account file (name file)) as [reports settled].
  simpl in Hok. subst settled.
  unfold UploadCard.setError, UploadCard.setUploading, UploadCard.setUploadedFile,
    UploadCard.setProgress, PipeFileStorage.addFile.
  js_simpl.
  match goal with
  | |- context [UploadCard.onProgress_calls reports ?w1] =>
      destruct (progress_reports_frame reports w1) as [p Hp]; rewrite Hp
  end.
  simpl. split; [reflexivity|]. split; [reflexivity|].
  split; [rewrite <- !app_assoc; reflexivity|]. split; reflexivity.
Qed.

(** C5: an upload attempt whose remote call is rejected leaves the index
    as it was and appends nothing to the trace but the call itself (no
    addFile, no broadcast); one whose call resolves appends the call, the
    addFile of the result under the account's key, and then the
    broadcast, and the index holds the result at the end of the
    account's sequence. *)
Theorem C5_upload_atomicity account client (file : File) (w : World) :
  let r := UploadCard.handleFileSelect account client (Some file) w in
  let key := UploadCard.fileStorage account in
  fst r = Normal tt ∧
  match snd (uploadFile client account file (name file)) with
  | inl err =>
      localStorage (snd r) = localStorage w ∧
      trace (snd r) = (trace w ++ [Remote (CallUploadFile account file (name file))])%list ∧
      UploadCardState.error (uploadCard (snd r)) = or_else (message err) "Upload failed" ∧
      UploadCardState.uploadedFile (uploadCard (snd r)) = None
  | inr result =>
      localStorage (snd r) =
        <[key := (default [] (localStorage w !! key) ++ [result])%list]> (localStorage w) ∧
      trace (snd r) =
        (trace w ++ [Remote (CallUploadFile account file (name file));
                     StorageAdd key result;
                     Dispatch "fileUploaded"])%list ∧
      UploadCardState.error (uploadCard (snd r)) = "" ∧
      UploadCardState.uploadedFile (uploadCard (snd r)) = Some result
  end.
Proof.
  intros r key. subst r key.
  destruct (snd (uploadFile client account file (name file))) as [err|result] eqn:Hout.
  - destruct (UploadCard_handleFileSelect_rejected account client file err w Hout)
      as (Hn & HL & Htr & He & Hf).
    split; [exact Hn|]. split; [exact HL|]. split; [exact Htr|].
    split; [exact He|exact Hf].
  - destruct (UploadCard_handleFileSelect_resolved account client file result w Hout)
      as (Hn & HL & Htr & He & Hf).
    split; [exact Hn|]. split; [exact HL|]. split; [exact Htr|].
    split; [exact He|exact Hf].
Qed.

(** Nothing happens when no file was selected. *)
Lemma UploadCard_handleFileSelect_none account client (w : World) :
  UploadCard.handleFileSelect account client None w = (Normal tt, w).
Proof. reflexivity. Qed.

(** ** FilesGallery: the preview loop *)

Lemma preview_frame_refl (w : World) : preview_frame w w.
Proof.
  split; try reflexivity.
  - exists []. split; [symmetry; apply app_nil_r | constructor].
  - intros u Hu. left. exact Hu.
Qed.

Lemma preview_frame_trans (w1 w2 w3 : World) :
  preview_frame w1 w2 → preview_frame w2 w3 → preview_frame w1 w3.
Proof.
  intros [[e1 [T1 F1]] L1 A1 O1 N1 R1 P1 Q1 U1 C1 G1 V1]
         [[e2 [T2 F2]] L2 A2 O2 N2 R2 P2 Q2 U2 C2 G2 V2].
  split; try congruence.
  - exists (e1 ++ e2)%list. split.
    + rewrite T2, T1, app_assoc. reflexivity.
    + apply Forall_app. split; assumption.
  - set_solver.
  - lia.
  - intros u Hu. destruct (R2 u Hu) as [Hu2|Hu2].
    + destruct (R1 u Hu2) as [Hu1|Hu1]; [left; exact Hu1 | right; lia].
    + right. lia.
Qed.

Lemma loadPreview_run account client (previews : gmap string ObjectURL)
    (file : UploadResult) (w : World) :
  FilesGallery.loadPreview account client previews file w =
    if isImageFile (fileName file) then
      match downloadFile client account (fileName file) with
      | inr bytes =>
          (Normal (<[fileId file := nextURL w]> previews),
           with_trace
             ((trace w ++ [Remote (CallDownloadFile account (fileName file))])
                ++ [CreateObjectURL (nextURL w)])
             (with_objectURLs ({[nextURL w]} ∪ objectURLs w) (S (nextURL w)) w))
      | inl err =>
          (Normal previews,
           with_trace
             ((trace w ++ [Remote (CallDownloadFile account (fileName file))])
                ++ [ConsoleError ("Failed to load preview for " +:+ fileName file) err])
             w)
      end
    else (Normal previews, w).
Proof.
  unfold FilesGallery.loadPreview, createObjectURL. js_simpl.
  destruct (isImageFile (fileName file)); [|reflexivity].
  destruct (downloadFile client account (fileName file)); reflexivity.
Qed.

(** One iteration: it completes normally whatever the download does. *)
Lemma loadPreview_step account client (previews : gmap string ObjectURL)
    (file : UploadResult) (w : World) :
  ∃ previews' w',
    FilesGallery.loadPreview account client previews file w = (Normal previews', w') ∧
    preview_frame w w' ∧
    (previewable account client file →
       previews' = <[fileId file := nextURL w]> previews ∧
       nextURL w' = S (nextURL w) ∧
       nextURL w ∈ objectURLs w') ∧
    (¬ previewable account client file → previews' = previews ∧ nextURL w' = nextURL w).
Proof.
  rewrite loadPreview_run. unfold previewable.
  destruct (isImageFile (fileName file)) eqn:Himg.
  - destruct (downloadFile client account (fileName file)) as [err|bytes] eqn:Hdl.
    + eexists _, _. split; [reflexivity|]. split; [|split].
      * split; simpl; try reflexivity; try lia.
        -- eexists. split; [rewrite <- app_assoc; reflexivity|].
           repeat constructor.
        -- intros u Hu. left. exact Hu.
      * intros [_ [bytes Hb]]. discriminate.
      * intros _. split; reflexivity.
    + eexists _, _. split; [reflexivity|]. split; [|split].
      * split; simpl; try reflexivity; try lia.
        -- eexists. split; [rewrite <- app_assoc; reflexivity|].
           repeat constructor.
        -- set_solver.
        -- intros u Hu. apply elem_of_union in Hu as [Hu|Hu]; [|left; exact Hu].
           apply elem_of_singleton in Hu. right. lia.
      * intros _. split; [reflexivity|]. split; [reflexivity|]. simpl. set_solver.
      * intros Hn. exfalso. apply Hn. split; [reflexivity|]. exists bytes. reflexivity.
  - eexists _, _. split; [reflexivity|]. split; [apply preview_frame_refl|]. split.
    + intros [Hcontra _]. discriminate.
    + intros _. split; reflexivity.
Qed.

Lemma previewable_dec account client (f : UploadResult) :
  previewable account client f ∨ ¬ previewable account client f.
Proof.
  unfold previewable.
  destruct (isImageFile (fileName f)).
  - destruct (downloadFile client account (fileName f)) as [err|bytes].
    + right. intros [_ [b Hb]]. discriminate.
    + left. split; [reflexivity|]. exists bytes. reflexivity.
  - right. intros [Hcontra _]. discriminate.
Qed.

(** The whole loop: it always completes, and the object it builds has an
    entry exactly for the ids it started with and the ids of the
    previewable records; entries made by the loop are fresh, live URLs. *)
Lemma preview_loop account client (files : list UploadResult) :
  ∀ (previews : gmap string ObjectURL) (w : World),
  ∃ previews' w',
    for_of files (FilesGallery.loadPreview account client) previews w
      = (Normal previews', w') ∧
    preview_frame w w' ∧
    (∀ id, is_Some (previews' !! id) ↔
           is_Some (previews !! id) ∨
           ∃ f, f ∈ files ∧ fileId f = id ∧ previewable account client f) ∧
    (∀ id u, previews' !! id = Some u →
             previews !! id = Some u ∨
             ((nextURL w ≤ u < nextURL w')%nat ∧ u ∈ objectURLs w')).
Proof.
  induction files as [|file files IH]; intros previews w.
  - exists previews, w. split; [reflexivity|]. split; [apply preview_frame_refl|].
    split.
    + intros id. split; [intros H; left; exact H|].
      intros [H|(f & Hf & _)]; [exact H|]. inversion Hf.
    + intros id u H. left. exact H.
  - cbn [for_of]. unfold mbind, Js_bind.
    destruct (loadPreview_step account client previews file w)
      as (p1 & w1 & Hrun & Hframe1 & Hyes & Hno).
    rewrite Hrun.
    destruct (IH p1 w1) as (p2 & w2 & Hloop & Hframe2 & Hdom & Hfresh).
    exists p2, w2. split; [exact Hloop|].
    split; [eapply preview_frame_trans; eassumption|].
    pose proof (frame_nextURL _ _ Hframe1) as Hn1.
    pose proof (frame_nextURL _ _ Hframe2) as Hn2.
    destruct (previewable_dec account client file) as [Hp|Hp].
    + destruct (Hyes Hp) as (-> & Hnext & Hlive1). split.
      * intros id. rewrite Hdom. split.
        -- intros [Hin|(f & Hf & Hid & Hpf)].
           ++ destruct (decide (fileId file = id)) as [<-|Hne].
              ** right. exists file. split; [left|]. split; [reflexivity|exact Hp].
              ** left. rewrite lookup_insert_ne in Hin by exact Hne. exact Hin.
           ++ right. exists f. split; [right; exact Hf|]. split; assumption.
        -- intros [Hin|(f & Hf & Hid & Hpf)].
           ++ left. destruct (decide (fileId file = id)) as [<-|Hne].
              ** rewrite lookup_insert_eq. eexists. reflexivity.
              ** rewrite lookup_insert_ne by exact Hne. exact Hin.
           ++ apply elem_of_cons in Hf as [->|Hf].
              ** left. rewrite <- Hid, lookup_insert_eq. eexists. reflexivity.
              ** right. exists f. split; [exact Hf|]. split; assumption.
      * intros id u Hu. destruct (Hfresh id u Hu) as [Hold|[Hrange Hlive]].
        -- destruct (decide (fileId file = id)) as [<-|Hne].
           ++ rewrite lookup_insert_eq in Hold. injection Hold as <-.
              right. split; [lia|].
              apply (frame_objectURLs _ _ Hframe2).
              exact Hlive1.
           ++ rewrite lookup_insert_ne in Hold by exact Hne. left. exact Hold.
        -- right. split; [lia|exact Hlive].
    + destruct (Hno Hp) as [-> Hnext]. split.
      * intros id. rewrite Hdom. split.
        -- intros [Hin|(f & Hf & Hid & Hpf)]; [left; exact Hin|].
           right. exists f. split; [right; exact Hf|]. split; assumption.
        -- intros [Hin|(f & Hf & Hid & Hpf)]; [left; exact Hin|].
           apply elem_of_cons in Hf as [->|Hf]; [contradiction|].
           right. exists f. split; [exact Hf|]. split; assumption.
      * intros id u Hu. destruct (Hfresh id u Hu) as [Hold|[Hrange Hlive]].
        -- left. exact Hold.
        -- right. split; [lia|exact Hlive].
Qed.

(** ** FilesGallery: a full reload *)

Lemma loadFiles_spec sdk account client (w : World) :
  let key := FilesGallery.fileStorage sdk account in
  let r := FilesGallery.loadFiles sdk account client w in
  let w' := snd r in
  fst r = Normal tt ∧
  FilesGalleryState.files (filesGallery w') = listing key w ∧
  (∃ evs, trace w' = (trace w ++ StorageList key :: evs)%list ∧
          Forall (λ e, is_preview_event e = true) evs) ∧
  localStorage w' = localStorage w ∧
  savedAccount w' = savedAccount w ∧
  objectURLs w ⊆ objectURLs w' ∧
  (nextURL w ≤ nextURL w')%nat ∧
  (∀ id, is_Some (FilesGalleryState.imagePreviews (filesGallery w') !! id) ↔
         ∃ f, f ∈ listing key w ∧ fileId f = id ∧ previewable account client f) ∧
  (∀ id u, FilesGalleryState.imagePreviews (filesGallery w') !! id = Some u →
           (nextURL w ≤ u < nextURL w')%nat ∧ u ∈ objectURLs w') ∧
  app w' = app w ∧ authCard w' = authCard w ∧ uploadCard w' = uploadCard w ∧
  accountCard w' = accountCard w ∧ uploadsCard w' = uploadsCard w.
Proof.
  intros key r w'. subst r w'.
  unfold FilesGallery.loadFiles, PipeFileStorage.listFiles, FilesGallery.setFiles,
    FilesGallery.setImagePreviews.
  js_simpl. fold key.
  match goal with
  | |- context [for_of ?fs _ ∅ ?w1] =>
      destruct (preview_loop account client fs ∅ w1)
        as (previews & w2 & Hloop & Hframe & Hdom & Hfresh); rewrite Hloop
  end.
  destruct Hframe as [[evs [Htr Hevs]] HL HA HO HN HR HP HQ HU HC HG HV].
  simpl in *.
  split; [reflexivity|].
  split; [rewrite HG; reflexivity|].
  split; [exists evs; split; [rewrite Htr, <- app_assoc; reflexivity | exact Hevs]|].
  split; [exact HL|]. split; [exact HA|]. split; [exact HO|]. split; [exact HN|].
  split.
  { intros id. rewrite Hdom. unfold listing. split.
    - intros [Hin|H]; [|exact H]. rewrite lookup_empty in Hin.
      destruct Hin as [? Hin]. discriminate.
    - intros H. right. exact H. }
  split.
  { intros id u Hu. destruct (Hfresh id u Hu) as [Hold|H]; [|exact H].
    rewrite lookup_empty in Hold. discriminate. }
  repeat split; assumption.
Qed.

(** ** isImageFile against the extension of the specification *)

Lemma lower_ascii_dot (c : ascii) :
  Ascii.eqb (lower_ascii c) "."%char = Ascii.eqb c "."%char.
Proof. destruct c as [[] [] [] [] [] [] [] []]; reflexivity. Qed.

Lemma extension_toLowerCase (s : string) :
  extension (toLowerCase s) = toLowerCase <$> extension s.
Proof.
  induction s as [|c s IH]; [reflexivity|].
  cbn [toLowerCase extension]. rewrite IH, lower_ascii_dot.
  destruct (extension s); [reflexivity|].
  destruct (Ascii.eqb c "."%char); reflexivity.
Qed.

Lemma split_dot_no_extension (s : string) :
  extension s = None → split_dot s = [s].
Proof.
  induction s as [|c s IH]; [reflexivity|].
  cbn [extension split_dot].
  destruct (extension s); [discriminate|].
  destruct (Ascii.eqb c "."%char); [discriminate|].
  intros _. rewrite IH by reflexivity. reflexivity.
Qed.

Lemma split_dot_extension (s e : string) :
  extension s = Some e →
  last (split_dot s) = Some e ∧ ∃ h g t, split_dot s = h :: g :: t.
Proof.
  revert e. induction s as [|c s IH]; intros e; [discriminate|].
  cbn [extension split_dot].
  destruct (extension s) as [e'|] eqn:He.
  - intros [= <-]. destruct (IH e' eq_refl) as (Hlast & h & g & t & Hs).
    rewrite Hs in *.
    destruct (Ascii.eqb c "."%char).
    + split; [exact Hlast|]. eauto.
    + split; [exact Hlast|]. eauto.
  - destruct (Ascii.eqb c "."%char); [|discriminate].
    intros [= <-]. rewrite (split_dot_no_extension s He).
    split; [reflexivity|]. eauto.
Qed.

(** On a name with a dot the code looks at the extension. *)
Lemma isImageFile_with_dot (s : string) :
  is_Some (extension s) → isImageFile s = has_image_extension s.
Proof.
  intros [e He]. unfold isImageFile, has_image_extension, pop.
  rewrite He.
  assert (extension (toLowerCase s) = Some (toLowerCase e)) as Hl
    by (rewrite extension_toLowerCase, He; reflexivity).
  destruct (split_dot_extension _ _ Hl) as [-> _]. reflexivity.
Qed.

(** On a name without a dot the code looks at the whole name. *)
Lemma isImageFile_without_dot (s : string) :
  extension s = None →
  isImageFile s = includes imageExtensions (toLowerCase s) ∧
  has_image_extension s = false.
Proof.
  intros He. unfold isImageFile, has_image_extension, pop. rewrite He.
  assert (extension (toLowerCase s) = None) as Hl
    by (rewrite extension_toLowerCase, He; reflexivity).
  rewrite (split_dot_no_extension _ Hl). split; reflexivity.
Qed.

(** ** The preview cache after a reload *)

Example gallery_listing :
  listing (FilesGallery.fileStorage sample_sdk alice) gallery_world
  = [photo; broken; notes].
Proof. reflexivity. Qed.




(** C9: when the download for one image of the listing is rejected, the
    reload still completes normally and shows the whole listing; every
    record whose own preview can be built has a handle; the failing
    record, when its id is its own, has none. *)
Theorem C9_preview_failure_isolated sdk account client (w : World)
    (bad : UploadResult) (err : JsError) :
  bad ∈ listing (FilesGallery.fileStorage sdk account) w →
  isImageFile (fileName bad) = true →
  downloadFile client account (fileName bad) = inl err →
  let r := FilesGallery.loadFiles sdk account client w in
  fst r = Normal tt ∧
  FilesGalleryState.files (filesGallery (snd r))
    = listing (FilesGallery.fileStorage sdk account) w ∧
  (∀ good, good ∈ listing (FilesGallery.fileStorage sdk account) w →
           isImageFile (fileName good) = true →
           (∃ bytes, downloadFile client account (fileName good) = inr bytes) →
           is_Some (FilesGalleryState.imagePreviews (filesGallery (snd r))
                    !! fileId good)) ∧
  ((∀ g, g ∈ listing (FilesGallery.fileStorage sdk account) w →
         fileId g = fileId bad → g = bad) →
   FilesGalleryState.imagePreviews (filesGallery (snd r)) !! fileId bad = None).
Proof.
  intros Hin Himg Hfail r. subst r.
  destruct (loadFiles_spec sdk account client w)
    as (Hnormal & Hfiles & _ & _ & _ & _ & _ & Hdom & _).
  split; [exact Hnormal|]. split; [exact Hfiles|]. split.
  - intros good Hgood Hgimg Hgdl. apply Hdom.
    exists good. split; [exact Hgood|]. split; [reflexivity|]. split; assumption.
  - intros Huniq. apply eq_None_not_Some. rewrite Hdom.
    intros (g & Hg & Hid & _ & bytes & Hdl).
    rewrite (Huniq g Hg Hid) in Hdl. congruence.
Qed.

Lemma C9_preview_failure_isolated_witness :
  fst (FilesGallery.loadFiles sample_sdk alice sample_client gallery_world) = Normal tt ∧
  is_Some (FilesGalleryState.imagePreviews
             (filesGallery (snd (FilesGallery.loadFiles sample_sdk alice sample_client
                                   gallery_world)))
           !! fileId photo).
Proof.
  assert (broken ∈ listing (FilesGallery.fileStorage sample_sdk alice) gallery_world)
    as Hin by (rewrite gallery_listing; apply list_elem_of_In; simpl; tauto).
  pose proof (C9_preview_failure_isolated sample_sdk alice sample_client gallery_world
                broken offline Hin eq_refl eq_refl) as H.
  cbv zeta in H. destruct H as (Hnormal & _ & Hgood & _).
  split; [exact Hnormal|].
  apply Hgood.
  - rewrite gallery_listing. apply list_elem_of_In. simpl. tauto.
  - reflexivity.
  - eexists. reflexivity.
Defined.

Example gallery_previews :
  map_to_list (FilesGalleryState.imagePreviews
                 (filesGallery (snd (FilesGallery.loadFiles sample_sdk alice
                                       sample_client gallery_world))))
  = [("id-photo", 0%nat)].
Proof. reflexivity. Qed.

(** ** Object URLs across reloads *)

Lemma preview_event_not_revoke (evs : list Event) (u : ObjectURL) :
  Forall (λ e, is_preview_event e = true) evs →
  Forall (λ e, e ≠ RevokeObjectURL u) evs.
Proof.
  intros H. eapply Forall_impl; [exact H|].
  intros e He ->. discriminate.
Qed.

(** C3, evaluated on the code: a reload releases nothing.  Every object
    URL that is live when [loadFiles] starts (so every handle of the
    previous generation) is still live when it ends, is not revoked on
    the way, and is referenced by no entry of the new preview map. *)
Theorem C3_reload_keeps_previous_generation sdk account client (w : World)
    (u : ObjectURL) :
  (∀ v, v ∈ objectURLs w → (v < nextURL w)%nat) →
  u ∈ objectURLs w →
  let w' := snd (FilesGallery.loadFiles sdk account client w) in
  u ∈ objectURLs w' ∧
  (∃ evs, trace w' = (trace w ++ evs)%list ∧
          Forall (λ e, e ≠ RevokeObjectURL u) evs) ∧
  (∀ id, FilesGalleryState.imagePreviews (filesGallery w') !! id ≠ Some u).
Proof.
  intros Hwf Hu w'. subst w'.
  destruct (loadFiles_spec sdk account client w)
    as (_ & _ & (evs & Htr & Hevs) & _ & _ & Hsub & _ & _ & Hfresh & _).
  split; [apply Hsub, Hu|]. split.
  - eexists. split; [exact Htr|]. constructor; [discriminate|].
    apply preview_event_not_revoke, Hevs.
  - intros id Hid. destruct (Hfresh id u Hid) as [Hrange _].
    specialize (Hwf u Hu). lia.
Qed.

Example mounted_world_urls :
  objectURLs mounted_world = {[ 0%nat ]} ∧ nextURL mounted_world = 1%nat ∧
  FilesGalleryState.imagePreviews (filesGallery mounted_world)
    = {[ "id-photo" := 0%nat ]}.
Proof. repeat split; reflexivity. Qed.

Lemma C3_reload_keeps_previous_generation_witness :
  0%nat ∈ objectURLs (snd (FilesGallery.loadFiles sample_sdk alice sample_client
                             mounted_world)) ∧
  FilesGalleryState.imagePreviews
    (filesGallery (snd (FilesGallery.loadFiles sample_sdk alice sample_client
                          mounted_world)))
  !! "id-photo" = Some 1%nat.
Proof.
  destruct mounted_world_urls as (Hurls & Hnext & _).
  assert (∀ v, v ∈ objectURLs mounted_world → (v < nextURL mounted_world)%nat) as Hwf.
  { intros v Hv. rewrite Hurls in Hv. apply elem_of_singleton in Hv.
    rewrite Hnext. lia. }
  assert (0%nat ∈ objectURLs mounted_world) as Hu.
  { rewrite Hurls. apply elem_of_singleton. reflexivity. }
  pose proof (C3_reload_keeps_previous_generation sample_sdk alice sample_client
                mounted_world 0%nat Hwf Hu) as H.
  cbv zeta in *. destruct H as (Hlive & _ & _).
  split; [exact Hlive|reflexivity].
Defined.

(** After the second reload two URLs are live and the map refers to one
    of them. *)
Example second_reload_leaks :
  elements (objectURLs (snd (FilesGallery.loadFiles sample_sdk alice sample_client
                               mounted_world))) = [1%nat; 0%nat] ∧
  map_to_list (FilesGalleryState.imagePreviews
                 (filesGallery (snd (FilesGallery.loadFiles sample_sdk alice
                                       sample_client mounted_world))))
  = [("id-photo", 1%nat)].
Proof. split; reflexivity. Qed.

(** ** Deleting a file *)

Lemma preview_event_is_reload_event (evs : list Event) :
  Forall (λ e, is_preview_event e = true) evs →
  Forall (λ e, is_reload_event e = true) evs.
Proof.
  intros H. eapply Forall_impl; [exact H|].
  intros [[]| | | | | | | | | | |]; simpl; congruence.
Qed.

Lemma reload_event_not_dispatch (evs : list Event) :
  Forall (λ e, is_reload_event e = true) evs →
  Forall (λ e, is_dispatch e = false ∧ is_delete_call e = false) evs.
Proof.
  intros H. eapply Forall_impl; [exact H|].
  intros [[]| | | | | | | | | | |]; simpl; intros; split; congruence.
Qed.

Lemma FilesGallery_handleDelete_declined sdk confirm account client
    (file : UploadResult) (w : World) :
  confirm ("Delete " +:+ fileName file +:+ "?") = false →
  FilesGallery.handleDelete sdk confirm account client file w = (Normal tt, w).
Proof. intros Hc. unfold FilesGallery.handleDelete. rewrite Hc. reflexivity. Qed.

Lemma FilesGallery_handleDelete_rejected sdk confirm account client
    (file : UploadResult) (err : JsError) (w : World) :
  confirm ("Delete " +:+ fileName file +:+ "?") = true →
  deleteFile client account (fileName file) = inl err →
  let r := FilesGallery.handleDelete sdk confirm account client file w in
  fst r = Normal tt ∧
  localStorage (snd r) = localStorage w ∧
  filesGallery (snd r) = filesGallery w ∧
  trace (snd r) =
    (trace w ++ [Remote (CallDeleteFile account (fileName file));
                 Alert (or_else (message err) "Delete failed")])%list.
Proof.
  intros Hc Hdel r. subst r. unfold FilesGallery.handleDelete.
  rewrite Hc. js_simpl. rewrite Hdel. simpl.
  repeat split. rewrite <- app_assoc. reflexivity.
Qed.

Lemma FilesGallery_handleDelete_resolved sdk confirm account client
    (file : UploadResult) (w : World) :
  confirm ("Delete " +:+ fileName file +:+ "?") = true →
  deleteFile client account (fileName file) = inr tt →
  let key := FilesGallery.fileStorage sdk account in
  let r := FilesGallery.handleDelete sdk confirm account client file w in
  fst r = Normal tt ∧
  localStorage (snd r) =
    <[key := filter (λ f, fileId f ≠ fileId file) (listing key w)]> (localStorage w) ∧
  FilesGalleryState.files (filesGallery (snd r)) =
    filter (λ f, fileId f ≠ fileId file) (listing key w) ∧
  ∃ evs,
    trace (snd r) =
      (trace w ++ Remote (CallDeleteFile account (fileName file))
                   :: StorageRemove key (fileId file) :: evs)%list ∧
    StorageList key ∈ evs ∧
    Forall (λ e, is_reload_event e = true) evs.
Proof.
  intros Hc Hdel key r. subst r. unfold FilesGallery.handleDelete.
  rewrite Hc. unfold PipeFileStorage.removeFile, revokeObjectURL. js_simpl.
  rewrite Hdel. simpl. fold key.
  destruct (FilesGalleryState.imagePreviews (filesGallery w) !! fileId file)
    as [url|]; simpl.
  - match goal with
    | |- context [FilesGallery.loadFiles sdk account client ?w1] =>
        destruct (loadFiles_spec sdk account client w1)
          as (Hn & Hfiles & (evs & Htr & Hevs) & HL & _);
        destruct (FilesGallery.loadFiles sdk account client w1) as [c w2]
    end.
    simpl in *. subst c. cbn [fst snd]. fold key in Hfiles, Htr.
    split; [reflexivity|]. split; [exact HL|]. split.
    { rewrite Hfiles. unfold listing. simpl. rewrite lookup_insert_eq. reflexivity. }
    exists (RevokeObjectURL url :: StorageList key :: evs). split.
    { rewrite Htr, <- !app_assoc. reflexivity. }
    split; [right; left|].
    constructor; [reflexivity|]. constructor; [reflexivity|].
    apply preview_event_is_reload_event, Hevs.
  - match goal with
    | |- context [FilesGallery.loadFiles sdk account client ?w1] =>
        destruct (loadFiles_spec sdk account client w1)
          as (Hn & Hfiles & (evs & Htr & Hevs) & HL & _);
        destruct (FilesGallery.loadFiles sdk account client w1) as [c w2]
    end.
    simpl in *. subst c. cbn [fst snd]. fold key in Hfiles, Htr.
    split; [reflexivity|]. split; [exact HL|]. split.
    { rewrite Hfiles. unfold listing. simpl. rewrite lookup_insert_eq. reflexivity. }
    exists (StorageList key :: evs). split.
    { rewrite Htr, <- !app_assoc. reflexivity. }
    split; [left|].
    constructor; [reflexivity|].
    apply preview_event_is_reload_event, Hevs.
Qed.

(** ** Balance queries *)


Lemma AccountCard_loadBalance_resolved account client (bal : Balance) (w : World) :
  getBalance client account = inr bal →
  let r := AccountCard.loadBalance account client w in
  fst r = Normal tt ∧
  trace (snd r) = (trace w ++ [Remote (CallGetBalance account)])%list ∧
  accountCard (snd r) =
    {| AccountCardState.balance := Some bal; AccountCardState.loadingBalance := false |}.
Proof.
  intros Hbal r. subst r.
  unfold AccountCard.loadBalance, AccountCard.setBalance, AccountCard.setLoadingBalance.
  js_simpl. rewrite Hbal. simpl. repeat split.
Qed.

Lemma UploadsCard_loadBalance_run account client (w : World) :
  let r := UploadsCard.loadBalance account client w in
  fst r = Normal tt ∧
  localStorage (snd r) = localStorage w ∧
  UploadsCardState.files (uploadsCard (snd r)) = UploadsCardState.files (uploadsCard w) ∧
  trace (snd r) =
    (trace w ++ Remote (CallGetBalance account) ::
       match getBalance client account with
       | inl err => [ConsoleError "Failed to load balance:" err]
       | inr _ => []
       end)%list ∧
  UploadsCardState.balance (uploadsCard (snd r)) =
    match getBalance client account with
    | inl _ => UploadsCardState.balance (uploadsCard w)
    | inr bal => Some bal
    end.
Proof.
  intros r. subst r.
  unfold UploadsCard.loadBalance, UploadsCard.setBalance, UploadsCard.setLoadingBalance.
  js_simpl. destruct (getBalance client account) as [err|bal]; simpl.
  - repeat split. rewrite <- app_assoc. reflexivity.
  - repeat split.
Qed.

(** ** UploadsCard *)

Lemma UploadsCard_loadFiles_run sdk (w : World) :
  let r := UploadsCard.loadFiles sdk w in
  fst r = Normal tt ∧
  localStorage (snd r) = localStorage w ∧
  trace (snd r) = (trace w ++ [StorageList (defaultStorageKey sdk)])%list ∧
  UploadsCardState.files (uploadsCard (snd r)) = listing (defaultStorageKey sdk) w.
Proof.
  intros r. subst r.
  unfold UploadsCard.loadFiles, UploadsCard.setFiles, PipeFileStorage.listFiles,
    UploadsCard.fileStorage.
  js_simpl. repeat split.
Qed.

Lemma UploadsCard_handleDelete_rejected sdk confirm account client
    (file : UploadResult) (err : JsError) (w : World) :
  confirm ("Delete " +:+ fileName file +:+ "?") = true →
  deleteFile client account (fileId file) = inl err →
  let r := UploadsCard.handleDelete sdk confirm account client file w in
  fst r = Normal tt ∧
  localStorage (snd r) = localStorage w ∧
  trace (snd r) =
    (trace w ++ [Remote (CallDeleteFile account (fileId file));
                 Alert (or_else (message err) "Delete failed")])%list.
Proof.
  intros Hc Hdel r. subst r. unfold UploadsCard.handleDelete.
  rewrite Hc. js_simpl. rewrite Hdel. simpl.
  repeat split. rewrite <- app_assoc. reflexivity.
Qed.

Lemma UploadsCard_handleDelete_resolved sdk confirm account client
    (file : UploadResult) (w : World) :
  confirm ("Delete " +:+ fileName file +:+ "?") = true →
  deleteFile client account (fileId file) = inr tt →
  let key := UploadsCard.fileStorage sdk in
  let r := UploadsCard.handleDelete sdk confirm account client file w in
  fst r = Normal tt ∧
  localStorage (snd r) =
    <[key := filter (λ f, fileId f ≠ fileId file) (listing key w)]> (localStorage w) ∧
  UploadsCardState.files (uploadsCard (snd r)) =
    filter (λ f, fileId f ≠ fileId file) (listing key w) ∧
  trace (snd r) =
    (trace w ++ Remote (CallDeleteFile account (fileId file))
                 :: StorageRemove key (fileId file)
                 :: StorageList key
                 :: Remote (CallGetBalance account)
                 :: match getBalance client account with
                    | inl err => [ConsoleError "Failed to load balance:" err]
                    | inr _ => []
                    end)%list.
Proof.
  intros Hc Hdel key r. subst r. unfold UploadsCard.handleDelete.
  rewrite Hc. unfold PipeFileStorage.removeFile. js_simpl.
  rewrite Hdel. unfold UploadsCard.loadFiles, PipeFileStorage.listFiles,
    UploadsCard.setFiles. js_simpl. simpl. fold key.
  match goal with
  | |- context [UploadsCard.loadBalance account client ?w2] =>
      destruct (UploadsCard_loadBalance_run account client w2)
        as (Hn2 & HL2 & Hf2 & Htr2 & _);
      destruct (UploadsCard.loadBalance account client w2) as [c2 w3]
  end.
  simpl in *. subst c2. cbn [fst snd].
  split; [reflexivity|].
  split; [rewrite HL2; reflexivity|].
  split.
  { rewrite Hf2. rewrite lookup_insert_eq. reflexivity. }
  rewrite Htr2. rewrite <- !app_assoc. reflexivity.
Qed.

(** ** The name given to [deleteFile] *)

(** FilesGallery gives the file name to the delete call. *)
Lemma FilesGallery_delete_passes_fileName sdk confirm account client
    (file : UploadResult) (w : World) :
  confirm ("Delete " +:+ fileName file +:+ "?") = true →
  ∃ rest,
    trace (snd (FilesGallery.handleDelete sdk confirm account client file w)) =
      (trace w ++ Remote (CallDeleteFile account (fileName file)) :: rest)%list ∧
    Forall (λ e, is_delete_call e = false) rest.
Proof.
  intros Hc. destruct (deleteFile client account (fileName file)) as [err|[]] eqn:Hdel.
  - destruct (FilesGallery_handleDelete_rejected sdk confirm account client file err w
                Hc Hdel) as (_ & _ & _ & Htr).
    eexists. split; [exact Htr|]. repeat constructor.
  - destruct (FilesGallery_handleDelete_resolved sdk confirm account client file w
                Hc Hdel) as (_ & _ & _ & evs & Htr & _ & Hevs).
    eexists. split; [exact Htr|]. constructor; [reflexivity|].
    eapply Forall_impl; [exact (reload_event_not_dispatch _ Hevs)|].
    intros e [_ He]. exact He.
Qed.

(** C4, evaluated on the code: the delete handler of UploadsCard calls
    [deleteFile] once, and the name it passes is the record's [fileId]. *)
Theorem C4_UploadsCard_delete_passes_fileId sdk confirm account client
    (file : UploadResult) (w : World) :
  confirm ("Delete " +:+ fileName file +:+ "?") = true →
  ∃ rest,
    trace (snd (UploadsCard.handleDelete sdk confirm account client file w)) =
      (trace w ++ Remote (CallDeleteFile account (fileId file)) :: rest)%list ∧
    Forall (λ e, is_delete_call e = false) rest.
Proof.
  intros Hc. destruct (deleteFile client account (fileId file)) as [err|[]] eqn:Hdel.
  - destruct (UploadsCard_handleDelete_rejected sdk confirm account client file err w
                Hc Hdel) as (_ & _ & Htr).
    eexists. split; [exact Htr|]. repeat constructor.
  - destruct (UploadsCard_handleDelete_resolved sdk confirm account client file w
                Hc Hdel) as (_ & _ & _ & Htr).
    eexists. split; [exact Htr|].
    destruct (getBalance client account); repeat constructor.
Qed.

Lemma C4_UploadsCard_delete_passes_fileId_witness :
  fileId photo ≠ fileName photo ∧
  ∃ rest,
    trace (snd (UploadsCard.handleDelete sample_sdk always_confirm alice sample_client
                  photo fresh_world)) =
      (trace fresh_world ++ Remote (CallDeleteFile alice (fileId photo)) :: rest)%list ∧
    Forall (λ e, is_delete_call e = false) rest.
Proof.
  split; [discriminate|].
  apply (C4_UploadsCard_delete_passes_fileId sample_sdk always_confirm alice
           sample_client photo fresh_world).
  reflexivity.
Defined.

Example UploadsCard_delete_photo_trace :
  trace (snd (UploadsCard.handleDelete sample_sdk always_confirm alice sample_client
                photo fresh_world))
  = [Remote (CallDeleteFile alice "id-photo");
     StorageRemove "pipe_files" "id-photo";
     StorageList "pipe_files";
     Remote (CallGetBalance alice)].
Proof. reflexivity. Qed.

(** ** Rejected calls *)




(** A rejected login or account creation ends in AuthCard's error
    field. *)
Lemma AuthCard_handleSubmit_rejected sdk client (err : JsError) (w : World) :
  valid (validateUsername sdk (AuthCardState.username (authCard w))) = true →
  valid (validatePassword sdk (AuthCardState.password (authCard w))) = true →
  (if AuthCardState.isCreating (authCard w)
   then createAccount client (AuthCardState.username (authCard w))
          (AuthCardState.password (authCard w))
   else login client (AuthCardState.username (authCard w))
          (AuthCardState.password (authCard w))) = inl err →
  let r := AuthCard.handleSubmit sdk (App.handleLogin client)
             (App.handleCreateAccount client) w in
  fst r = Normal tt ∧
  AuthCardState.error (authCard (snd r)) = Some (AuthCard.errorMessage_of err) ∧
  AuthCardState.loading (authCard (snd r)) = false ∧
  savedAccount (snd r) = savedAccount w ∧
  app (snd r) = app w.
Proof.
  intros Hu Hp Hrej r. subst r.
  unfold AuthCard.handleSubmit, AuthCard.setError, AuthCard.setLoading,
    App.handleLogin, App.handleCreateAccount.
  js_simpl. rewrite Hu, Hp. simpl.
  destruct (AuthCardState.isCreating (authCard w)); rewrite Hrej; simpl; repeat split.
Qed.



(** A download that resolves is saved and its URL released; the index is
    not touched. *)
Lemma FilesGallery_handleDownload_resolved account client (file : UploadResult)
    (bytes : Bytes) (w : World) :
  downloadFile client account (fileName file) = inr bytes →
  nextURL w ∉ objectURLs w →
  let r := FilesGallery.handleDownload account client file w in
  fst r = Normal tt ∧
  trace (snd r) =
    (trace w ++ [Remote (CallDownloadFile account (fileName file));
                 CreateObjectURL (nextURL w);
                 SaveAs (fileName file) (nextURL w);
                 RevokeObjectURL (nextURL w)])%list ∧
  objectURLs (snd r) = objectURLs w ∧
  localStorage (snd r) = localStorage w.
Proof.
  intros Hok Hfresh r. subst r.
  unfold FilesGallery.handleDownload, FilesGallery.setDownloading, createObjectURL,
    revokeObjectURL.
  js_simpl. rewrite Hok. simpl.
  split; [reflexivity|]. split; [rewrite <- !app_assoc; reflexivity|].
  split; [set_solver|reflexivity].
Qed.



(** ** Mutation and broadcast *)

(** A successful delete in the gallery emits no broadcast: after the
    removal come the release of the deleted file's handle and the
    gallery's own reload. *)
Lemma C2_counterexample :
  deleteFile sample_client alice (fileName photo) = inr tt ∧
  trace (snd (FilesGallery.handleDelete sample_sdk always_confirm alice sample_client
                photo mounted_world))
  = (trace mounted_world
       ++ [Remote (CallDeleteFile alice "photo.png");
           StorageRemove "firestarter_files_alice123" "id-photo";
           RevokeObjectURL 0%nat;
           StorageList "firestarter_files_alice123"])%list ∧
  Forall (λ e, is_dispatch e = false)
    (trace (snd (FilesGallery.handleDelete sample_sdk always_confirm alice
                   sample_client photo mounted_world))).
Proof.
  split; [reflexivity|]. split; [reflexivity|].
  vm_compute. repeat constructor.
Qed.

(** C2, as the code has it: a successful upload adds the record and then
    emits the broadcast; a successful delete removes the record and then
    the deleting component reloads its own view (the gallery its listing
    and previews, UploadsCard its listing and its balance), and no
    broadcast appears among the events of a delete. *)
Theorem C2_broadcast_after_upload_reload_after_delete sdk confirm account client
    (file : File) (result : UploadResult) (record : UploadResult) (w : World) :
  (snd (uploadFile client account file (name file)) = inr result →
     trace (snd (UploadCard.handleFileSelect account client (Some file) w)) =
       (trace w ++ [Remote (CallUploadFile account file (name file));
                    StorageAdd (UploadCard.fileStorage account) result;
                    Dispatch "fileUploaded"])%list) ∧
  (confirm ("Delete " +:+ fileName record +:+ "?") = true →
   deleteFile client account (fileName record) = inr tt →
     ∃ evs,
       trace (snd (FilesGallery.handleDelete sdk confirm account client record w)) =
         (trace w ++ Remote (CallDeleteFile account (fileName record))
                      :: StorageRemove (FilesGallery.fileStorage sdk account)
                           (fileId record)
                      :: evs)%list ∧
       StorageList (FilesGallery.fileStorage sdk account) ∈ evs ∧
       Forall (λ e, is_dispatch e = false) evs) ∧
  (confirm ("Delete " +:+ fileName record +:+ "?") = true →
   deleteFile client account (fileId record) = inr tt →
     ∃ evs,
       trace (snd (UploadsCard.handleDelete sdk confirm account client record w)) =
         (trace w ++ Remote (CallDeleteFile account (fileId record))
                      :: StorageRemove (UploadsCard.fileStorage sdk) (fileId record)
                      :: StorageList (UploadsCard.fileStorage sdk)
                      :: Remote (CallGetBalance account)
                      :: evs)%list ∧
       Forall (λ e, is_dispatch e = false) evs).
Proof.
  split; [|split].
  - intros Hup.
    destruct (UploadCard_handleFileSelect_resolved account client file result w Hup)
      as (_ & _ & Htr & _).
    exact Htr.
  - intros Hc Hdel.
    destruct (FilesGallery_handleDelete_resolved sdk confirm account client record w
                Hc Hdel) as (_ & _ & _ & evs & Htr & Hlist & Hevs).
    exists evs. split; [exact Htr|]. split; [exact Hlist|].
    eapply Forall_impl; [exact (reload_event_not_dispatch _ Hevs)|].
    intros e [He _]. exact He.
  - intros Hc Hdel.
    destruct (UploadsCard_handleDelete_resolved sdk confirm account client record w
                Hc Hdel) as (_ & _ & _ & Htr).
    eexists. split; [exact Htr|].
    destruct (getBalance client account); repeat constructor.
Qed.

Lemma C2_broadcast_after_upload_reload_after_delete_witness :
  trace (snd (UploadCard.handleFileSelect alice sample_client
                (Some {| name := "photo.png"; content := [] |}) fresh_world)) =
    [Remote (CallUploadFile alice {| name := "photo.png"; content := [] |} "photo.png");
     StorageAdd "firestarter_files_alice123"
       {| fileId := "id-photo.png"; fileName := "photo.png"; size := 0; uploadedAt := 9 |};
     Dispatch "fileUploaded"] ∧
  (∃ evs,
     trace (snd (FilesGallery.handleDelete sample_sdk always_confirm alice sample_client
                   photo fresh_world)) =
       (trace fresh_world
          ++ Remote (CallDeleteFile alice (fileName photo))
             :: StorageRemove (FilesGallery.fileStorage sample_sdk alice) (fileId photo)
             :: evs)%list ∧
     StorageList (FilesGallery.fileStorage sample_sdk alice) ∈ evs ∧
     Forall (λ e, is_dispatch e = false) evs) ∧
  (∃ evs,
     trace (snd (UploadsCard.handleDelete sample_sdk always_confirm alice sample_client
                   photo fresh_world)) =
       (trace fresh_world
          ++ Remote (CallDeleteFile alice (fileId photo))
             :: StorageRemove (UploadsCard.fileStorage sample_sdk) (fileId photo)
             :: StorageList (UploadsCard.fileStorage sample_sdk)
             :: Remote (CallGetBalance alice)
             :: evs)%list ∧
     Forall (λ e, is_dispatch e = false) evs).
Proof.
  destruct (C2_broadcast_after_upload_reload_after_delete sample_sdk always_confirm
              alice sample_client {| name := "photo.png"; content := [] |}
              {| fileId := "id-photo.png"; fileName := "photo.png"; size := 0;
                 uploadedAt := 9 |}
              photo fresh_world) as (Hup & Hgallery & Huploads).
  split; [exact (Hup eq_refl)|].
  split; [exact (Hgallery eq_refl eq_refl)|exact (Huploads eq_refl eq_refl)].
Defined.

(** ** Error propagation *)




(** ** Scope of the index *)

Lemma UploadCard_fileStorage_inj (a b : PipeAccount) :
  UploadCard.fileStorage a = UploadCard.fileStorage b → username a = username b.
Proof. unfold UploadCard.fileStorage. simpl. intros [= H]. exact H. Qed.

(** An upload under one account leaves the sequence stored under every
    other key as it was. *)
Lemma UploadCard_upload_scoped (b : PipeAccount) client (file : File) (key : string)
    (w : World) :
  key ≠ UploadCard.fileStorage b →
  listing key (snd (UploadCard.handleFileSelect b client (Some file) w)) = listing key w.
Proof.
  intros Hne. unfold listing.
  destruct (snd (uploadFile client b file (name file))) as [err|result] eqn:Hout.
  - destruct (UploadCard_handleFileSelect_rejected b client file err w Hout)
      as (_ & -> & _).
    reflexivity.
  - destruct (UploadCard_handleFileSelect_resolved b client file result w Hout)
      as (_ & -> & _).
    rewrite lookup_insert_ne by congruence. reflexivity.
Qed.

(** UploadCard and FilesGallery keep accounts apart when [forAccount]
    picks the key UploadCard writes to: what the gallery lists under [a]
    is not changed by an upload under another user name. *)
Lemma FilesGallery_listing_scoped sdk (a b : PipeAccount) client (file : File)
    (w : World) :
  forAccountKey sdk a = UploadCard.fileStorage a →
  username a ≠ username b →
  listing (FilesGallery.fileStorage sdk a)
    (snd (UploadCard.handleFileSelect b client (Some file) w))
  = listing (FilesGallery.fileStorage sdk a) w.
Proof.
  intros Hkey Hne. apply UploadCard_upload_scoped.
  unfold FilesGallery.fileStorage. rewrite Hkey.
  intros Heq. apply Hne, UploadCard_fileStorage_inj, Heq.
Qed.

Lemma UploadsCard_handleFileUploaded_run sdk account client (w : World) :
  let r := UploadsCard.handleFileUploaded sdk account client w in
  fst r = Normal tt ∧
  UploadsCardState.files (uploadsCard (snd r)) = listing (UploadsCard.fileStorage sdk) w ∧
  ∃ evs, trace (snd r) =
           (trace w ++ StorageList (UploadsCard.fileStorage sdk) :: evs)%list.
Proof.
  intros r. subst r. unfold UploadsCard.handleFileUploaded, UploadsCard.loadFiles,
    PipeFileStorage.listFiles, UploadsCard.setFiles.
  js_simpl.
  match goal with
  | |- context [UploadsCard.loadBalance account client ?w2] =>
      destruct (UploadsCard_loadBalance_run account client w2)
        as (Hn & _ & Hf & Htr & _);
      destruct (UploadsCard.loadBalance account client w2) as [c w3]
  end.
  simpl in *. subst c. split; [reflexivity|]. split; [exact Hf|].
  eexists. rewrite Htr, <- app_assoc. reflexivity.
Qed.

(** C1, evaluated on the code: UploadsCard reads and mutates one
    namespace whatever the account.  Under two accounts with different
    user names its reload lists the same key and shows the same
    sequence, so a record kept there shows under both; and a delete
    confirmed under one account removes the record from what the other
    account lists. *)
Theorem C1_UploadsCard_index_not_scoped sdk confirm (a b : PipeAccount) client
    (record : UploadResult) (w : World) :
  username a ≠ username b →
  record ∈ listing (UploadsCard.fileStorage sdk) w →
  (∃ evs_a evs_b,
     trace (snd (UploadsCard.handleFileUploaded sdk a client w)) =
       (trace w ++ StorageList (UploadsCard.fileStorage sdk) :: evs_a)%list ∧
     trace (snd (UploadsCard.handleFileUploaded sdk b client w)) =
       (trace w ++ StorageList (UploadsCard.fileStorage sdk) :: evs_b)%list) ∧
  record ∈ UploadsCardState.files
             (uploadsCard (snd (UploadsCard.handleFileUploaded sdk a client w))) ∧
  record ∈ UploadsCardState.files
             (uploadsCard (snd (UploadsCard.handleFileUploaded sdk b client w))) ∧
  (confirm ("Delete " +:+ fileName record +:+ "?") = true →
   deleteFile client a (fileId record) = inr tt →
   record ∉ UploadsCardState.files
              (uploadsCard
                 (snd (UploadsCard.handleFileUploaded sdk b client
                         (snd (UploadsCard.handleDelete sdk confirm a client record w)))))).
Proof.
  intros _ Hin.
  destruct (UploadsCard_handleFileUploaded_run sdk a client w) as (_ & -> & ea & Ha).
  destruct (UploadsCard_handleFileUploaded_run sdk b client w) as (_ & -> & eb & Hb).
  split; [exists ea, eb; split; assumption|].
  split; [exact Hin|]. split; [exact Hin|].
  intros Hc Hdel.
  destruct (UploadsCard_handleFileUploaded_run sdk b client
              (snd (UploadsCard.handleDelete sdk confirm a client record w)))
    as (_ & -> & _).
  destruct (UploadsCard_handleDelete_resolved sdk confirm a client record w Hc Hdel)
    as (_ & HL & _).
  unfold listing at 1. rewrite HL, lookup_insert_eq. simpl.
  intros Hmem. apply list_elem_of_filter in Hmem as [Hid _]. apply Hid. reflexivity.
Qed.

Lemma C1_UploadsCard_index_not_scoped_witness :
  photo ∈ UploadsCardState.files
            (uploadsCard (snd (UploadsCard.handleFileUploaded sample_sdk alice
                                 sample_client shared_world))) ∧
  photo ∈ UploadsCardState.files
            (uploadsCard (snd (UploadsCard.handleFileUploaded sample_sdk bob
                                 sample_client shared_world))) ∧
  photo ∉ UploadsCardState.files
            (uploadsCard
               (snd (UploadsCard.handleFileUploaded sample_sdk bob sample_client
                       (snd (UploadsCard.handleDelete sample_sdk always_confirm alice
                               sample_client photo shared_world))))).
Proof.
  assert (username alice ≠ username bob) as Hne by discriminate.
  assert (photo ∈ listing (UploadsCard.fileStorage sample_sdk) shared_world) as Hin.
  { change (listing (UploadsCard.fileStorage sample_sdk) shared_world) with [photo].
    apply list_elem_of_In. simpl. tauto. }
  destruct (C1_UploadsCard_index_not_scoped sample_sdk always_confirm alice bob
              sample_client photo shared_world Hne Hin) as (_ & Ha & Hb & Hdel).
  split; [exact Ha|]. split; [exact Hb|].
  exact (Hdel eq_refl eq_refl).
Defined.

(** * Further properties of the handlers *)

(** ** Session: login, logout, restart *)

Lemma App_mount_after_reload (w : World) :
  fst (App.mount (reload_page w)) = Normal tt ∧
  AppState.account (app (snd (App.mount (reload_page w)))) = savedAccount w ∧
  AppState.loading (app (snd (App.mount (reload_page w)))) = false ∧
  trace (snd (App.mount (reload_page w))) = trace w.
Proof.
  unfold App.mount, PipeAccountStorage.load, App.setAccount, App.setLoading.
  js_simpl. simpl. destruct (savedAccount w); repeat split.
Qed.

(** X1: a login or an account creation that resolves makes the returned
    account the active one and persists it, after the one remote call;
    a page reload followed by App's mount effect brings the same account
    back without any further call. *)
Theorem X1_login_survives_page_reload client (u p : string) (acc : PipeAccount)
    (w : World) :
  (login client u p = inr acc →
     fst (App.handleLogin client u p w) = Normal tt ∧
     trace (snd (App.handleLogin client u p w)) =
       (trace w ++ [Remote (CallLogin u p); AccountSave acc])%list ∧
     AppState.account (app (snd (App.handleLogin client u p w))) = Some acc ∧
     savedAccount (snd (App.handleLogin client u p w)) = Some acc ∧
     AppState.account
       (app (snd (App.mount (reload_page (snd (App.handleLogin client u p w))))))
       = Some acc ∧
     trace (snd (App.mount (reload_page (snd (App.handleLogin client u p w)))))
       = trace (snd (App.handleLogin client u p w))) ∧
  (createAccount client u p = inr acc →
     fst (App.handleCreateAccount client u p w) = Normal tt ∧
     trace (snd (App.handleCreateAccount client u p w)) =
       (trace w ++ [Remote (CallCreateAccount u p); AccountSave acc])%list ∧
     AppState.account (app (snd (App.handleCreateAccount client u p w))) = Some acc ∧
     savedAccount (snd (App.handleCreateAccount client u p w)) = Some acc ∧
     AppState.account
       (app (snd (App.mount
                    (reload_page (snd (App.handleCreateAccount client u p w))))))
       = Some acc ∧
     trace (snd (App.mount
                   (reload_page (snd (App.handleCreateAccount client u p w)))))
       = trace (snd (App.handleCreateAccount client u p w))).
Proof.
  split; intros Hok.
  - destruct (App_mount_after_reload (snd (App.handleLogin client u p w)))
      as (_ & -> & _ & ->).
    unfold App.handleLogin, App.setAccount, PipeAccountStorage.save.
    js_simpl. rewrite Hok. simpl.
    repeat split. rewrite <- app_assoc. reflexivity.
  - destruct (App_mount_after_reload (snd (App.handleCreateAccount client u p w)))
      as (_ & -> & _ & ->).
    unfold App.handleCreateAccount, App.setAccount, PipeAccountStorage.save.
    js_simpl. rewrite Hok. simpl.
    repeat split. rewrite <- app_assoc. reflexivity.
Qed.

Lemma X1_login_survives_page_reload_witness :
  AppState.account
    (app (snd (App.mount
                 (reload_page (snd (App.handleLogin sample_client "alice123"
                                      "Passw0rd!1" fresh_world))))))
  = Some {| username := "alice123"; password := "Passw0rd!1";
            userId := "u-alice123"; userAppKey := "k-alice123" |} ∧
  savedAccount (snd (App.handleCreateAccount sample_client "alice123" "Passw0rd!1"
                       fresh_world))
  = Some {| username := "alice123"; password := "Passw0rd!1";
            userId := "u-alice123"; userAppKey := "k-alice123" |}.
Proof.
  destruct (X1_login_survives_page_reload sample_client "alice123" "Passw0rd!1"
              {| username := "alice123"; password := "Passw0rd!1";
                 userId := "u-alice123"; userAppKey := "k-alice123" |} fresh_world)
    as [Hlogin Hcreate].
  split.
  - exact (proj1 (proj2 (proj2 (proj2 (proj2 (Hlogin eq_refl)))))).
  - exact (proj1 (proj2 (proj2 (proj2 (Hcreate eq_refl))))).
Defined.

(** X2: logout drops the active account and the persisted one without a
    remote call and without touching the file index, whatever the state
    before; after a page reload the mount effect finds no account. *)
Theorem X2_logout_clears_session (w : World) :
  fst (App.handleLogout w) = Normal tt ∧
  trace (snd (App.handleLogout w)) = (trace w ++ [AccountClear])%list ∧
  AppState.account (app (snd (App.handleLogout w))) = None ∧
  savedAccount (snd (App.handleLogout w)) = None ∧
  localStorage (snd (App.handleLogout w)) = localStorage w ∧
  AppState.account (app (snd (App.mount (reload_page (snd (App.handleLogout w))))))
    = None.
Proof.
  destruct (App_mount_after_reload (snd (App.handleLogout w))) as (_ & -> & _).
  unfold App.handleLogout, App.setAccount, PipeAccountStorage.clear.
  js_simpl. simpl. repeat split.
Qed.

(** X3: a submitted form with well-formed credentials whose login or
    creation call is rejected leaves the persisted account and App's
    state as they were and ends with the busy flag off; after a page
    reload the mount effect finds exactly what was persisted before the
    attempt. *)
Theorem X3_rejected_login_persists_nothing sdk client (err : JsError) (w : World) :
  valid (validateUsername sdk (AuthCardState.username (authCard w))) = true →
  valid (validatePassword sdk (AuthCardState.password (authCard w))) = true →
  (if AuthCardState.isCreating (authCard w)
   then createAccount client (AuthCardState.username (authCard w))
          (AuthCardState.password (authCard w))
   else login client (AuthCardState.username (authCard w))
          (AuthCardState.password (authCard w))) = inl err →
  savedAccount (snd (AuthCard.handleSubmit sdk (App.handleLogin client)
                       (App.handleCreateAccount client) w)) = savedAccount w ∧
  app (snd (AuthCard.handleSubmit sdk (App.handleLogin client)
              (App.handleCreateAccount client) w)) = app w ∧
  AuthCardState.loading
    (authCard (snd (AuthCard.handleSubmit sdk (App.handleLogin client)
                      (App.handleCreateAccount client) w))) = false ∧
  AppState.account
    (app (snd (App.mount
                 (reload_page
                    (snd (AuthCard.handleSubmit sdk (App.handleLogin client)
                            (App.handleCreateAccount client) w))))))
    = savedAccount w.
Proof.
  intros Hu Hp Hrej.
  destruct (AuthCard_handleSubmit_rejected sdk client err w Hu Hp Hrej)
    as (_ & _ & Hl & Hs & Ha).
  destruct (App_mount_after_reload
              (snd (AuthCard.handleSubmit sdk (App.handleLogin client)
                      (App.handleCreateAccount client) w))) as (_ & -> & _).
  repeat split; assumption.
Qed.

Lemma X3_rejected_login_persists_nothing_witness :
  savedAccount (snd (AuthCard.handleSubmit sample_sdk (App.handleLogin failing_client)
                       (App.handleCreateAccount failing_client) login_form_world))
  = None.
Proof.
  exact (proj1 (X3_rejected_login_persists_nothing sample_sdk failing_client offline
                  login_form_world eq_refl eq_refl eq_refl)).
Defined.

(** X4: a submitted form with well-formed credentials makes exactly one
    remote call, the creation call in create mode and the login call
    otherwise, whether the call resolves or is rejected, and ends with
    the busy flag off.  When the call resolves the account is active and
    persisted and the error field is the empty string; when it is
    rejected the only other event is the console message, nothing is
    persisted and the error field holds the message for the error. *)
Theorem X4_submit_makes_one_call sdk client (w : World) :
  valid (validateUsername sdk (AuthCardState.username (authCard w))) = true →
  valid (validatePassword sdk (AuthCardState.password (authCard w))) = true →
  let r := AuthCard.handleSubmit sdk (App.handleLogin client)
             (App.handleCreateAccount client) w in
  let call :=
    if AuthCardState.isCreating (authCard w)
    then CallCreateAccount (AuthCardState.username (authCard w))
           (AuthCardState.password (authCard w))
    else CallLogin (AuthCardState.username (authCard w))
           (AuthCardState.password (authCard w)) in
  let answer :=
    if AuthCardState.isCreating (authCard w)
    then createAccount client (AuthCardState.username (authCard w))
           (AuthCardState.password (authCard w))
    else login client (AuthCardState.username (authCard w))
           (AuthCardState.password (authCard w)) in
  fst r = Normal tt ∧
  (∃ evs, trace (snd r) = (trace w ++ evs)%list ∧ remote_calls evs = [call]) ∧
  AuthCardState.loading (authCard (snd r)) = false ∧
  match answer with
  | inr acc =>
      trace (snd r) = (trace w ++ [Remote call; AccountSave acc])%list ∧
      AppState.account (app (snd r)) = Some acc ∧
      savedAccount (snd r) = Some acc ∧
      AuthCardState.error (authCard (snd r)) = Some ""
  | inl err =>
      trace (snd r) = (trace w ++ [Remote call; ConsoleError "Auth error:" err])%list ∧
      app (snd r) = app w ∧
      savedAccount (snd r) = savedAccount w ∧
      AuthCardState.error (authCard (snd r)) = Some (AuthCard.errorMessage_of err)
  end.
Proof.
  intros Hu Hp r call answer. subst r call answer.
  unfold AuthCard.handleSubmit, AuthCard.setError, AuthCard.setLoading,
    App.handleLogin, App.handleCreateAccount, App.setAccount, PipeAccountStorage.save.
  js_simpl. rewrite Hu, Hp. simpl.
  destruct (AuthCardState.isCreating (authCard w)).
  - destruct (createAccount client _ _) as [err|acc]; simpl.
    + split; [reflexivity|]. split.
      { eexists. split; [rewrite <- !app_assoc; reflexivity|reflexivity]. }
      split; [reflexivity|]. repeat split. rewrite <- app_assoc. reflexivity.
    + split; [reflexivity|]. split.
      { eexists. split; [rewrite <- !app_assoc; reflexivity|reflexivity]. }
      split; [reflexivity|]. repeat split. rewrite <- app_assoc. reflexivity.
  - destruct (login client _ _) as [err|acc]; simpl.
    + split; [reflexivity|]. split.
      { eexists. split; [rewrite <- !app_assoc; reflexivity|reflexivity]. }
      split; [reflexivity|]. repeat split. rewrite <- app_assoc. reflexivity.
    + split; [reflexivity|]. split.
      { eexists. split; [rewrite <- !app_assoc; reflexivity|reflexivity]. }
      split; [reflexivity|]. repeat split. rewrite <- app_assoc. reflexivity.
Qed.

Lemma X4_submit_makes_one_call_witness :
  trace (snd (AuthCard.handleSubmit sample_sdk (App.handleLogin sample_client)
                (App.handleCreateAccount sample_client) create_form_world))
  = [Remote (CallCreateAccount "alice123" "Passw0rd!1");
     AccountSave {| username := "alice123"; password := "Passw0rd!1";
                    userId := "u-alice123"; userAppKey := "k-alice123" |}] ∧
  trace (snd (AuthCard.handleSubmit sample_sdk (App.handleLogin failing_client)
                (App.handleCreateAccount failing_client) login_form_world))
  = [Remote (CallLogin "alice123" "Passw0rd!1"); ConsoleError "Auth error:" offline].
Proof.
  pose proof (X4_submit_makes_one_call sample_sdk sample_client create_form_world
                eq_refl eq_refl) as Hok.
  pose proof (X4_submit_makes_one_call sample_sdk failing_client login_form_world
                eq_refl eq_refl) as Hrej.
  cbv zeta in Hok, Hrej.
  split.
  - exact (proj1 (proj2 (proj2 (proj2 Hok)))).
  - exact (proj1 (proj2 (proj2 (proj2 Hrej)))).
Defined.

(** X5: the message AuthCard shows for a caught error is empty in one
    case only: the error carries a code outside the four known ones and
    an empty message (the [default] branch then replaces the fallback
    text by the empty message). *)
Theorem X5_auth_message_empty_iff (err : JsError) :
  AuthCard.errorMessage_of err = "" ↔
  message err = "" ∧ ∃ c, code err = Some (OTHER_CODE c) ∧ c ≠ "".
Proof.
  unfold AuthCard.errorMessage_of, AuthCard.truthy_code.
  assert (or_else (message err) "Authentication failed" ≠ "") as Hfallback
    by (apply or_else_nonempty; discriminate).
  destruct (code err) as [[| | | |c]|] eqn:Hcode.
  - split; [discriminate|]. intros (_ & c & Hc & _). discriminate.
  - split; [discriminate|]. intros (_ & c & Hc & _). discriminate.
  - split; [discriminate|]. intros (_ & c & Hc & _). discriminate.
  - split; [discriminate|]. intros (_ & c & Hc & _). discriminate.
  - destruct (String.eqb c "") eqn:Hc.
    + apply String.eqb_eq in Hc. subst c. split; [contradiction|].
      intros (_ & c & [= <-] & Hne). contradiction.
    + apply String.eqb_neq in Hc. split.
      * intros Hm. split; [exact Hm|]. exists c. split; [reflexivity|exact Hc].
      * intros [Hm _]. exact Hm.
  - split; [contradiction|]. intros (_ & c & Hc & _). discriminate.
Qed.

(** ** Downloads *)

(** X6: a download, whether it resolves or is rejected, completes
    normally after exactly one remote call, leaves the file index, the
    listing shown and the preview map as they were, clears the
    in-progress marker, and leaves the set of live object URLs as it
    was (the URL made for the saved file is revoked).  Both components
    behave alike. *)
Theorem X6_download_leaves_index_and_urls account client (file : UploadResult)
    (w : World) :
  nextURL w ∉ objectURLs w →
  (let r := FilesGallery.handleDownload account client file w in
   fst r = Normal tt ∧
   (∃ evs, trace (snd r) = (trace w ++ evs)%list ∧
           remote_calls evs = [CallDownloadFile account (fileName file)]) ∧
   localStorage (snd r) = localStorage w ∧
   objectURLs (snd r) = objectURLs w ∧
   FilesGalleryState.downloading (filesGallery (snd r)) = None ∧
   FilesGalleryState.files (filesGallery (snd r))
     = FilesGalleryState.files (filesGallery w) ∧
   FilesGalleryState.imagePreviews (filesGallery (snd r))
     = FilesGalleryState.imagePreviews (filesGallery w)) ∧
  (let r := UploadsCard.handleDownload account client file w in
   fst r = Normal tt ∧
   (∃ evs, trace (snd r) = (trace w ++ evs)%list ∧
           remote_calls evs = [CallDownloadFile account (fileName file)]) ∧
   localStorage (snd r) = localStorage w ∧
   objectURLs (snd r) = objectURLs w ∧
   UploadsCardState.downloading (uploadsCard (snd r)) = None ∧
   UploadsCardState.files (uploadsCard (snd r))
     = UploadsCardState.files (uploadsCard w)).
Proof.
  intros Hfresh. split.
  - unfold FilesGallery.handleDownload, FilesGallery.setDownloading, createObjectURL,
      revokeObjectURL.
    js_simpl.
    destruct (downloadFile client account (fileName file)) as [err|bytes]; simpl.
    + split; [reflexivity|]. split.
      { eexists. split; [rewrite <- !app_assoc; reflexivity|reflexivity]. }
      repeat split.
    + split; [reflexivity|]. split.
      { eexists. split; [rewrite <- !app_assoc; reflexivity|reflexivity]. }
      split; [reflexivity|]. split; [set_solver|]. repeat split.
  - unfold UploadsCard.handleDownload, UploadsCard.setDownloading, createObjectURL,
      revokeObjectURL.
    js_simpl.
    destruct (downloadFile client account (fileName file)) as [err|bytes]; simpl.
    + split; [reflexivity|]. split.
      { eexists. split; [rewrite <- !app_assoc; reflexivity|reflexivity]. }
      repeat split.
    + split; [reflexivity|]. split.
      { eexists. split; [rewrite <- !app_assoc; reflexivity|reflexivity]. }
      split; [reflexivity|]. split; [set_solver|]. repeat split.
Qed.

Lemma X6_download_leaves_index_and_urls_witness :
  objectURLs (snd (FilesGallery.handleDownload alice sample_client photo mounted_world))
    = objectURLs mounted_world ∧
  FilesGalleryState.downloading
    (filesGallery (snd (FilesGallery.handleDownload alice sample_client photo
                          mounted_world))) = None.
Proof.
  assert (nextURL mounted_world ∉ objectURLs mounted_world) as Hfresh.
  { destruct mounted_world_urls as (-> & -> & _).
    intros H. apply elem_of_singleton in H. discriminate. }
  destruct (X6_download_leaves_index_and_urls alice sample_client photo mounted_world
              Hfresh) as [Hg _].
  cbv zeta in Hg. destruct Hg as (_ & _ & _ & Hurls & Hd & _).
  split; assumption.
Defined.

(** ** Deleting a file: the other outcomes *)

(** X7: a delete is all or nothing.  When the user declines the
    confirmation nothing happens at all, no call included; when the
    remote call is rejected the file index, the state of the component
    and the live object URLs are what they were, and the only events
    are the call and the alert.  UploadsCard then makes no balance
    query either. *)
Theorem X7_delete_declined_or_rejected sdk confirm account client
    (file : UploadResult) (err : JsError) (w : World) :
  (confirm ("Delete " +:+ fileName file +:+ "?") = false →
     FilesGallery.handleDelete sdk confirm account client file w = (Normal tt, w) ∧
     UploadsCard.handleDelete sdk confirm account client file w = (Normal tt, w)) ∧
  (confirm ("Delete " +:+ fileName file +:+ "?") = true →
   deleteFile client account (fileName file) = inl err →
     let r := FilesGallery.handleDelete sdk confirm account client file w in
     fst r = Normal tt ∧
     trace (snd r) =
       (trace w ++ [Remote (CallDeleteFile account (fileName file));
                    Alert (or_else (message err) "Delete failed")])%list ∧
     localStorage (snd r) = localStorage w ∧
     objectURLs (snd r) = objectURLs w ∧
     filesGallery (snd r) = filesGallery w) ∧
  (confirm ("Delete " +:+ fileName file +:+ "?") = true →
   deleteFile client account (fileId file) = inl err →
     let r := UploadsCard.handleDelete sdk confirm account client file w in
     fst r = Normal tt ∧
     trace (snd r) =
       (trace w ++ [Remote (CallDeleteFile account (fileId file));
                    Alert (or_else (message err) "Delete failed")])%list ∧
     localStorage (snd r) = localStorage w ∧
     uploadsCard (snd r) = uploadsCard w).
Proof.
  split; [|split].
  - intros Hc. unfold FilesGallery.handleDelete, UploadsCard.handleDelete.
    rewrite Hc. split; reflexivity.
  - intros Hc Hrej r. subst r. unfold FilesGallery.handleDelete.
    rewrite Hc. js_simpl. rewrite Hrej. simpl.
    repeat split. rewrite <- app_assoc. reflexivity.
  - intros Hc Hrej r. subst r. unfold UploadsCard.handleDelete.
    rewrite Hc. js_simpl. rewrite Hrej. simpl.
    repeat split. rewrite <- app_assoc. reflexivity.
Qed.

Lemma X7_delete_declined_or_rejected_witness :
  FilesGallery.handleDelete sample_sdk (λ _, false) alice sample_client photo
    mounted_world = (Normal tt, mounted_world) ∧
  filesGallery (snd (FilesGallery.handleDelete sample_sdk always_confirm alice
                       failing_client photo mounted_world))
    = filesGallery mounted_world ∧
  uploadsCard (snd (UploadsCard.handleDelete sample_sdk always_confirm alice
                      failing_client photo mounted_world))
    = uploadsCard mounted_world.
Proof.
  split; [|split].
  - exact (proj1 (proj1 (X7_delete_declined_or_rejected sample_sdk (λ _, false) alice
                           sample_client photo offline mounted_world) eq_refl)).
  - exact (proj2 (proj2 (proj2 (proj2
             (proj1 (proj2 (X7_delete_declined_or_rejected sample_sdk always_confirm
                              alice failing_client photo offline mounted_world))
                eq_refl eq_refl))))).
  - exact (proj2 (proj2 (proj2
             (proj2 (proj2 (X7_delete_declined_or_rejected sample_sdk always_confirm
                              alice failing_client photo offline mounted_world))
                eq_refl eq_refl)))).
Defined.

(** ** Deleting a file: the resolved call *)

Lemma FilesGallery_handleDelete_as_reload sdk confirm account client
    (file : UploadResult) (w : World) :
  confirm ("Delete " +:+ fileName file +:+ "?") = true →
  deleteFile client account (fileName file) = inr tt →
  FilesGallery.handleDelete sdk confirm account client file w =
  FilesGallery.loadFiles sdk account client
    (after_removal (FilesGallery.fileStorage sdk account) account file w).
Proof.
  intros Hc Hdel. unfold FilesGallery.handleDelete, after_removal.
  rewrite Hc. unfold PipeFileStorage.removeFile, revokeObjectURL.
  js_simpl. rewrite Hdel. simpl.
  destruct (FilesGalleryState.imagePreviews (filesGallery w) !! fileId file)
    as [url|]; simpl.
  - match goal with
    | |- context [FilesGallery.loadFiles sdk account client ?w1] =>
        destruct (loadFiles_spec sdk account client w1) as (Hn & _);
        destruct (FilesGallery.loadFiles sdk account client w1) as [c w2]
    end.
    cbn [fst] in Hn. subst c. reflexivity.
  - match goal with
    | |- context [FilesGallery.loadFiles sdk account client ?w1] =>
        destruct (loadFiles_spec sdk account client w1) as (Hn & _);
        destruct (FilesGallery.loadFiles sdk account client w1) as [c w2]
    end.
    cbn [fst] in Hn. subst c. reflexivity.
Qed.

(** The object URLs live after a reload were live before it or were
    made by it. *)
Lemma loadFiles_live_urls sdk account client (w : World) (v : ObjectURL) :
  v ∈ objectURLs (snd (FilesGallery.loadFiles sdk account client w)) →
  v ∈ objectURLs w ∨ (nextURL w ≤ v)%nat.
Proof.
  unfold FilesGallery.loadFiles, PipeFileStorage.listFiles, FilesGallery.setFiles,
    FilesGallery.setImagePreviews.
  js_simpl.
  match goal with
  | |- context [for_of ?fs _ ∅ ?w1] =>
      destruct (preview_loop account client fs ∅ w1)
        as (previews & w2 & Hloop & Hframe & _); rewrite Hloop
  end.
  simpl. intros Hv. destruct (frame_fresh _ _ Hframe v Hv) as [H|H].
  - left. exact H.
  - right. simpl in H. lia.
Qed.

Lemma after_removal_fields (key : string) account (file : UploadResult) (w : World) :
  let w1 := after_removal key account file w in
  localStorage w1 =
    <[key := filter (λ f, fileId f ≠ fileId file) (listing key w)]> (localStorage w) ∧
  nextURL w1 = nextURL w ∧
  objectURLs w1 =
    match FilesGalleryState.imagePreviews (filesGallery w) !! fileId file with
    | Some url => objectURLs w ∖ {[url]}
    | None => objectURLs w
    end ∧
  trace w1 =
    (trace w ++ Remote (CallDeleteFile account (fileName file))
       :: StorageRemove key (fileId file)
       :: match FilesGalleryState.imagePreviews (filesGallery w) !! fileId file with
          | Some url => [RevokeObjectURL url]
          | None => []
          end)%list.
Proof.
  unfold after_removal, PipeFileStorage.removeFile, revokeObjectURL, emit, listing.
  destruct (FilesGalleryState.imagePreviews (filesGallery w) !! fileId file);
    simpl; repeat split; rewrite <- !app_assoc; reflexivity.
Qed.

Lemma filter_keeps_all {A} (P : A → Prop) `{∀ x, Decision (P x)} (l : list A) :
  (∀ x, x ∈ l → P x) → filter P l = l.
Proof.
  induction l as [|a l IH]; intros Hall; [reflexivity|].
  rewrite filter_cons_True by (apply Hall; left).
  rewrite IH; [reflexivity|]. intros x Hx. apply Hall. right. exact Hx.
Qed.

(** X8: when the gallery deletes a file for which the render holds a
    preview handle, the events of the handler are, in this order, the
    delete call, the removal from the index, the revocation of that
    handle, and then the reload (its listing and the preview events);
    the handle is not live after the handler, and neither the record nor
    an entry under its id is shown afterwards. *)
Theorem X8_delete_releases_the_handle sdk confirm account client
    (file : UploadResult) (u : ObjectURL) (w : World) :
  confirm ("Delete " +:+ fileName file +:+ "?") = true →
  deleteFile client account (fileName file) = inr tt →
  FilesGalleryState.imagePreviews (filesGallery w) !! fileId file = Some u →
  (u < nextURL w)%nat →
  let key := FilesGallery.fileStorage sdk account in
  let w' := snd (FilesGallery.handleDelete sdk confirm account client file w) in
  (u ∉ objectURLs w') ∧
  RevokeObjectURL u ∈ trace w' ∧
  (∃ evs,
     trace w' =
       (trace w ++ Remote (CallDeleteFile account (fileName file))
                    :: StorageRemove key (fileId file)
                    :: RevokeObjectURL u
                    :: StorageList key
                    :: evs)%list ∧
     Forall (λ e, is_preview_event e = true) evs) ∧
  FilesGalleryState.imagePreviews (filesGallery w') !! fileId file = None ∧
  (∀ f, f ∈ FilesGalleryState.files (filesGallery w') → fileId f ≠ fileId file).
Proof.
  intros Hc Hdel Hu Hlt key w'. subst w'.
  rewrite (FilesGallery_handleDelete_as_reload _ _ _ _ _ _ Hc Hdel).
  fold key.
  destruct (after_removal_fields key account file w) as (HL & HN & HO & HT).
  rewrite Hu in HO, HT.
  destruct (loadFiles_spec sdk account client (after_removal key account file w))
    as (_ & Hfiles & (evs & Htr & Hevs) & _ & _ & _ & _ & Hdom & _).
  fold key in Hfiles, Htr, Hdom.
  assert (listing key (after_removal key account file w)
          = filter (λ f, fileId f ≠ fileId file) (listing key w)) as Hlist.
  { unfold listing at 1. rewrite HL, lookup_insert_eq. reflexivity. }
  split; [|split; [|split; [|split]]].
  - intros Hlive. apply loadFiles_live_urls in Hlive as [Hold|Hnew].
    + rewrite HO in Hold. set_solver.
    + rewrite HN in Hnew. lia.
  - rewrite Htr, HT. apply elem_of_app. left. apply elem_of_app. right.
    right. right. left.
  - exists evs. split; [|exact Hevs].
    rewrite Htr, HT, <- app_assoc. reflexivity.
  - apply eq_None_not_Some. rewrite Hdom. intros (f & Hf & Hid & _).
    rewrite Hlist in Hf. apply list_elem_of_filter in Hf as [Hne _]. contradiction.
  - intros f Hf. rewrite Hfiles, Hlist in Hf.
    apply list_elem_of_filter in Hf as [Hne _]. exact Hne.
Qed.

Lemma X8_delete_releases_the_handle_witness :
  (0%nat ∉ objectURLs (snd (FilesGallery.handleDelete sample_sdk always_confirm alice
                              sample_client photo mounted_world))) ∧
  trace (snd (FilesGallery.handleDelete sample_sdk always_confirm alice sample_client
                photo mounted_world))
  = (trace mounted_world
       ++ [Remote (CallDeleteFile alice "photo.png");
           StorageRemove "firestarter_files_alice123" "id-photo";
           RevokeObjectURL 0%nat;
           StorageList "firestarter_files_alice123"])%list ∧
  FilesGalleryState.imagePreviews
    (filesGallery (snd (FilesGallery.handleDelete sample_sdk always_confirm alice
                          sample_client photo mounted_world)))
  !! fileId photo = None.
Proof.
  assert (0 < nextURL mounted_world)%nat as Hlt.
  { destruct mounted_world_urls as (_ & -> & _). lia. }
  pose proof (X8_delete_releases_the_handle sample_sdk always_confirm alice
                sample_client photo 0%nat mounted_world eq_refl eq_refl eq_refl Hlt)
    as H.
  cbv zeta in H. destruct H as (Hdead & _ & _ & Hnone & _).
  split; [exact Hdead|]. split; [reflexivity|exact Hnone].
Defined.

(** X9: a delete whose call resolves removes from the sequence stored
    under the component's key exactly the records with the file's id,
    keeps the others in their order, shows that sequence, and leaves the
    sequences under all other keys alone; when no stored record has the
    id the sequence is unchanged.  The gallery and UploadsCard behave
    alike, each on its own key. *)
Theorem X9_delete_removes_exactly_that_id sdk confirm account client
    (file : UploadResult) (w : World) :
  confirm ("Delete " +:+ fileName file +:+ "?") = true →
  (deleteFile client account (fileName file) = inr tt →
     let key := FilesGallery.fileStorage sdk account in
     let w' := snd (FilesGallery.handleDelete sdk confirm account client file w) in
     FilesGalleryState.files (filesGallery w')
       = filter (λ f, fileId f ≠ fileId file) (listing key w) ∧
     listing key w' = FilesGalleryState.files (filesGallery w') ∧
     (∀ k, k ≠ key → listing k w' = listing k w) ∧
     ((∀ f, f ∈ listing key w → fileId f ≠ fileId file) →
      FilesGalleryState.files (filesGallery w') = listing key w)) ∧
  (deleteFile client account (fileId file) = inr tt →
     let key := UploadsCard.fileStorage sdk in
     let w' := snd (UploadsCard.handleDelete sdk confirm account client file w) in
     UploadsCardState.files (uploadsCard w')
       = filter (λ f, fileId f ≠ fileId file) (listing key w) ∧
     listing key w' = UploadsCardState.files (uploadsCard w') ∧
     (∀ k, k ≠ key → listing k w' = listing k w) ∧
     ((∀ f, f ∈ listing key w → fileId f ≠ fileId file) →
      UploadsCardState.files (uploadsCard w') = listing key w)).
Proof.
  intros Hc. split; intros Hdel key w'; subst w'.
  - destruct (FilesGallery_handleDelete_resolved sdk confirm account client file w
                Hc Hdel) as (_ & HL & Hf & _).
    fold key in HL, Hf. split; [exact Hf|]. split; [|split].
    + unfold listing at 1. rewrite HL, lookup_insert_eq, Hf. reflexivity.
    + intros k Hk. unfold listing at 1. rewrite HL, lookup_insert_ne by congruence.
      reflexivity.
    + intros Hall. rewrite Hf. apply filter_keeps_all. exact Hall.
  - destruct (UploadsCard_handleDelete_resolved sdk confirm account client file w
                Hc Hdel) as (_ & HL & Hf & _).
    fold key in HL, Hf. split; [exact Hf|]. split; [|split].
    + unfold listing at 1. rewrite HL, lookup_insert_eq, Hf. reflexivity.
    + intros k Hk. unfold listing at 1. rewrite HL, lookup_insert_ne by congruence.
      reflexivity.
    + intros Hall. rewrite Hf. apply filter_keeps_all. exact Hall.
Qed.

Lemma X9_delete_removes_exactly_that_id_witness :
  FilesGalleryState.files
    (filesGallery (snd (FilesGallery.handleDelete sample_sdk always_confirm alice
                          sample_client broken gallery_world)))
  = [photo; notes] ∧
  UploadsCardState.files
    (uploadsCard (snd (UploadsCard.handleDelete sample_sdk always_confirm alice
                         sample_client photo shared_world)))
  = [].
Proof.
  destruct (X9_delete_removes_exactly_that_id sample_sdk always_confirm alice
              sample_client broken gallery_world eq_refl) as [Hg _].
  destruct (X9_delete_removes_exactly_that_id sample_sdk always_confirm alice
              sample_client photo shared_world eq_refl) as [_ Hu].
  split.
  - exact (proj1 (Hg eq_refl)).
  - exact (proj1 (Hu eq_refl)).
Defined.

(** ** Reloads *)

(** X10: a reload of the gallery only reads the persisted state: the
    file index and the persisted account are unchanged, the listing
    shown is the stored sequence, a second reload shows the same
    listing, and every entry of the preview map is a live object URL
    filed under the id of a stored record that the code takes for an
    image. *)
Theorem X10_reload_reads_only sdk account client (w : World) :
  let key := FilesGallery.fileStorage sdk account in
  let w' := snd (FilesGallery.loadFiles sdk account client w) in
  localStorage w' = localStorage w ∧
  savedAccount w' = savedAccount w ∧
  FilesGalleryState.files (filesGallery w') = listing key w ∧
  FilesGalleryState.files
    (filesGallery (snd (FilesGallery.loadFiles sdk account client w')))
    = FilesGalleryState.files (filesGallery w') ∧
  (∀ id u, FilesGalleryState.imagePreviews (filesGallery w') !! id = Some u →
           u ∈ objectURLs w' ∧
           ∃ f, f ∈ listing key w ∧ fileId f = id ∧ isImageFile (fileName f) = true).
Proof.
  intros key w'. subst w'.
  destruct (loadFiles_spec sdk account client w)
    as (_ & Hfiles & _ & HL & HA & _ & _ & Hdom & Hlive & _).
  fold key in Hfiles, Hdom.
  split; [exact HL|]. split; [exact HA|]. split; [exact Hfiles|]. split.
  - destruct (loadFiles_spec sdk account client
                (snd (FilesGallery.loadFiles sdk account client w)))
      as (_ & Hfiles2 & _).
    fold key in Hfiles2. rewrite Hfiles2, Hfiles. unfold listing. rewrite HL.
    reflexivity.
  - intros id u Hu. split; [apply (Hlive id u Hu)|].
    destruct (proj1 (Hdom id)) as (f & Hf & Hid & Himg & _).
    { eexists. exact Hu. }
    exists f. repeat split; assumption.
Qed.

Lemma image_names_cons (f : UploadResult) (files : list UploadResult) :
  image_names (f :: files) =
    if isImageFile (fileName f) then fileName f :: image_names files
    else image_names files.
Proof.
  unfold image_names. destruct (isImageFile (fileName f)) eqn:Himg.
  - rewrite filter_cons_True by exact Himg. reflexivity.
  - rewrite filter_cons_False by congruence. reflexivity.
Qed.

Lemma remote_calls_remote (c : RemoteCall) (evs : list Event) :
  remote_calls (Remote c :: evs) = c :: remote_calls evs.
Proof. reflexivity. Qed.

Lemma remote_calls_other (e : Event) (evs : list Event) :
  (∀ c, e ≠ Remote c) → remote_calls (e :: evs) = remote_calls evs.
Proof. intros Hne. destruct e; try reflexivity. destruct (Hne c eq_refl). Qed.

Lemma preview_loop_calls account client (files : list UploadResult) :
  ∀ (previews : gmap string ObjectURL) (w : World),
  ∃ evs,
    trace (snd (for_of files (FilesGallery.loadPreview account client) previews w))
      = (trace w ++ evs)%list ∧
    remote_calls evs = CallDownloadFile account <$> image_names files.
Proof.
  induction files as [|f files IH]; intros previews w.
  - exists []. split; [symmetry; apply app_nil_r|reflexivity].
  - cbn [for_of]. unfold mbind, Js_bind. rewrite loadPreview_run, image_names_cons.
    destruct (isImageFile (fileName f)).
    + destruct (downloadFile client account (fileName f)) as [err|bytes].
      * match goal with
        | |- context [for_of files _ ?p ?w1] => destruct (IH p w1) as (evs & Htr & Hc)
        end.
        exists (Remote (CallDownloadFile account (fileName f)) :: ConsoleError ("Failed to load preview for " +:+ fileName f) err :: evs).
        split; [rewrite Htr; simpl; rewrite <- !app_assoc; reflexivity|].
        rewrite remote_calls_remote, remote_calls_other by discriminate.
        rewrite Hc. reflexivity.
      * match goal with
        | |- context [for_of files _ ?p ?w1] => destruct (IH p w1) as (evs & Htr & Hc)
        end.
        exists (Remote (CallDownloadFile account (fileName f)) :: CreateObjectURL (nextURL w) :: evs).
        split; [rewrite Htr; simpl; rewrite <- !app_assoc; reflexivity|].
        rewrite remote_calls_remote, remote_calls_other by discriminate.
        rewrite Hc. reflexivity.
    + apply IH.
Qed.

(** The remote calls of a reload, read off the loop. *)
Lemma loadFiles_remote_calls sdk account client (w : World) :
  ∃ evs,
    trace (snd (FilesGallery.loadFiles sdk account client w)) = (trace w ++ evs)%list ∧
    remote_calls evs =
      CallDownloadFile account
        <$> image_names (listing (FilesGallery.fileStorage sdk account) w).
Proof.
  unfold FilesGallery.loadFiles, PipeFileStorage.listFiles, FilesGallery.setFiles,
    FilesGallery.setImagePreviews.
  js_simpl.
  match goal with
  | |- context [for_of ?fs _ ∅ ?w1] =>
      destruct (preview_loop_calls account client fs ∅ w1) as (evs & Htr & Hc);
      destruct (preview_loop account client fs ∅ w1) as (p & w2 & Hloop & _)
  end.
  rewrite Hloop in *. simpl in *.
  exists (StorageList (FilesGallery.fileStorage sdk account) :: evs). split.
  - rewrite Htr, <- app_assoc. reflexivity.
  - exact Hc.
Qed.

(** X11: the remote calls of one reload are exactly one download per
    stored record that the code takes for an image, by file name, in
    the order of the listing; a record of any other name costs no
    call. *)
Theorem X11_reload_downloads_images_once sdk account client (w : World) :
  ∃ evs,
    trace (snd (FilesGallery.loadFiles sdk account client w)) = (trace w ++ evs)%list ∧
    remote_calls evs =
      CallDownloadFile account
        <$> image_names (listing (FilesGallery.fileStorage sdk account) w).
Proof.
  destruct (loadFiles_remote_calls sdk account client w) as (evs & Htr & Hcalls).
  exists evs. split; [exact Htr|exact Hcalls].
Qed.

Example gallery_reload_calls :
  remote_calls (trace (snd (FilesGallery.loadFiles sample_sdk alice sample_client
                              gallery_world)))
  = [CallDownloadFile alice "photo.png"; CallDownloadFile alice "broken.JPG"].
Proof. reflexivity. Qed.

Lemma preview_loop_injective account client (files : list UploadResult) :
  ∀ (previews : gmap string ObjectURL) (w : World),
  (∀ id u, previews !! id = Some u → (u < nextURL w)%nat) →
  (∀ id1 id2 u, previews !! id1 = Some u → previews !! id2 = Some u → id1 = id2) →
  ∃ previews' w',
    for_of files (FilesGallery.loadPreview account client) previews w
      = (Normal previews', w') ∧
    (∀ id u, previews' !! id = Some u → (u < nextURL w')%nat) ∧
    (∀ id1 id2 u, previews' !! id1 = Some u → previews' !! id2 = Some u → id1 = id2).
Proof.
  induction files as [|file files IH]; intros previews w Hbound Hinj.
  - exists previews, w. split; [reflexivity|]. split; assumption.
  - cbn [for_of]. unfold mbind, Js_bind.
    destruct (loadPreview_step account client previews file w)
      as (p1 & w1 & Hrun & _ & Hyes & Hno).
    rewrite Hrun. apply IH.
    + destruct (previewable_dec account client file) as [Hp|Hp].
      * destruct (Hyes Hp) as (-> & -> & _). intros id u Hu.
        destruct (decide (fileId file = id)) as [<-|Hne].
        -- rewrite lookup_insert_eq in Hu. injection Hu as <-. lia.
        -- rewrite lookup_insert_ne in Hu by exact Hne.
           specialize (Hbound id u Hu). lia.
      * destruct (Hno Hp) as (-> & ->). exact Hbound.
    + destruct (previewable_dec account client file) as [Hp|Hp].
      * destruct (Hyes Hp) as (-> & _ & _). intros id1 id2 u H1 H2.
        destruct (decide (fileId file = id1)) as [<-|Hne1];
          destruct (decide (fileId file = id2)) as [<-|Hne2].
        -- reflexivity.
        -- rewrite lookup_insert_eq in H1. injection H1 as <-.
           rewrite lookup_insert_ne in H2 by exact Hne2.
           specialize (Hbound id2 _ H2). lia.
        -- rewrite lookup_insert_eq in H2. injection H2 as <-.
           rewrite lookup_insert_ne in H1 by exact Hne1.
           specialize (Hbound id1 _ H1). lia.
        -- rewrite lookup_insert_ne in H1 by exact Hne1.
           rewrite lookup_insert_ne in H2 by exact Hne2.
           exact (Hinj id1 id2 u H1 H2).
      * destruct (Hno Hp) as (-> & _). exact Hinj.
Qed.

(** X12: after a reload no object URL is filed under two file ids: the
    handle shown for one file is never the handle of another. *)
Theorem X12_reload_handles_are_not_shared sdk account client (w : World)
    (id1 id2 : string) (u : ObjectURL) :
  FilesGalleryState.imagePreviews
    (filesGallery (snd (FilesGallery.loadFiles sdk account client w))) !! id1 = Some u →
  FilesGalleryState.imagePreviews
    (filesGallery (snd (FilesGallery.loadFiles sdk account client w))) !! id2 = Some u →
  id1 = id2.
Proof.
  unfold FilesGallery.loadFiles, PipeFileStorage.listFiles, FilesGallery.setFiles,
    FilesGallery.setImagePreviews.
  js_simpl.
  match goal with
  | |- context [for_of ?fs _ ∅ ?w1] =>
      destruct (preview_loop_injective account client fs ∅ w1)
        as (p & w2 & Hloop & _ & Hinj)
  end.
  - intros id v Hv. rewrite lookup_empty in Hv. discriminate.
  - intros i1 i2 v Hv. rewrite lookup_empty in Hv. discriminate.
  - rewrite Hloop. simpl. apply Hinj.
Qed.

Lemma X12_reload_handles_are_not_shared_witness : "id-photo" = "id-photo".
Proof.
  exact (X12_reload_handles_are_not_shared sample_sdk alice sample_client gallery_world
           "id-photo" "id-photo" 0%nat eq_refl eq_refl).
Defined.

(** ** Uploads seen from the gallery *)

(** X13: when [forAccount] picks the key UploadCard writes to, an upload
    that resolves followed by the gallery's listener shows the stored
    listing with the new record at its end, and the new record has a
    preview handle whenever the code takes it for an image and its
    download resolves. *)
Theorem X13_upload_then_listener_shows_record sdk account client (file : File)
    (result : UploadResult) (w : World) :
  forAccountKey sdk account = UploadCard.fileStorage account →
  snd (uploadFile client account file (name file)) = inr result →
  let w1 := snd (UploadCard.handleFileSelect account client (Some file) w) in
  let w2 := snd (FilesGallery.handleFileUploaded sdk account client w1) in
  FilesGalleryState.files (filesGallery w2)
    = (listing (FilesGallery.fileStorage sdk account) w ++ [result])%list ∧
  (previewable account client result →
   is_Some (FilesGalleryState.imagePreviews (filesGallery w2) !! fileId result)).
Proof.
  intros Hkey Hok w1 w2. subst w1 w2. unfold FilesGallery.handleFileUploaded.
  destruct (UploadCard_handleFileSelect_resolved account client file result w Hok)
    as (_ & HL & _).
  destruct (loadFiles_spec sdk account client
              (snd (UploadCard.handleFileSelect account client (Some file) w)))
    as (_ & Hfiles & _ & _ & _ & _ & _ & Hdom & _).
  assert (listing (FilesGallery.fileStorage sdk account)
            (snd (UploadCard.handleFileSelect account client (Some file) w))
          = (listing (FilesGallery.fileStorage sdk account) w ++ [result])%list)
    as Hlist.
  { unfold listing, FilesGallery.fileStorage. rewrite HL, Hkey, lookup_insert_eq.
    reflexivity. }
  split.
  - rewrite Hfiles, Hlist. reflexivity.
  - intros Hp. apply Hdom. exists result. rewrite Hlist.
    split; [apply elem_of_app; right; left|]. split; [reflexivity|exact Hp].
Qed.

Lemma X13_upload_then_listener_shows_record_witness :
  FilesGalleryState.files
    (filesGallery
       (snd (FilesGallery.handleFileUploaded sample_sdk alice sample_client
               (snd (UploadCard.handleFileSelect alice sample_client (Some photo_file)
                       photo_world)))))
  = [photo;
     {| fileId := "id-photo.png"; fileName := "photo.png"; size := 0; uploadedAt := 9 |}].
Proof.
  exact (proj1 (X13_upload_then_listener_shows_record sample_sdk alice sample_client
                  photo_file
                  {| fileId := "id-photo.png"; fileName := "photo.png"; size := 0;
                     uploadedAt := 9 |}
                  photo_world eq_refl eq_refl)).
Defined.

(** X14: when [forAccount] picks the key UploadCard writes to for an
    account, an upload attempt under another user name, resolved or not,
    does not change what a reload of that account's gallery shows. *)
Theorem X14_other_account_upload_not_listed sdk (a b : PipeAccount) client
    (file : File) (w : World) :
  forAccountKey sdk a = UploadCard.fileStorage a →
  username a ≠ username b →
  FilesGalleryState.files
    (filesGallery
       (snd (FilesGallery.loadFiles sdk a client
               (snd (UploadCard.handleFileSelect b client (Some file) w)))))
  = FilesGalleryState.files (filesGallery (snd (FilesGallery.loadFiles sdk a client w))).
Proof.
  intros Hkey Hne.
  destruct (loadFiles_spec sdk a client
              (snd (UploadCard.handleFileSelect b client (Some file) w)))
    as (_ & -> & _).
  destruct (loadFiles_spec sdk a client w) as (_ & -> & _).
  apply FilesGallery_listing_scoped; assumption.
Qed.

Lemma X14_other_account_upload_not_listed_witness :
  FilesGalleryState.files
    (filesGallery
       (snd (FilesGallery.loadFiles sample_sdk alice sample_client
               (snd (UploadCard.handleFileSelect bob sample_client (Some photo_file)
                       photo_world)))))
  = [photo].
Proof.
  rewrite (X14_other_account_upload_not_listed sample_sdk alice bob sample_client
             photo_file photo_world eq_refl).
  - reflexivity.
  - discriminate.
Defined.

(** ** File names *)

Lemma lower_ascii_idempotent (c : ascii) : lower_ascii (lower_ascii c) = lower_ascii c.
Proof. destruct c as [[] [] [] [] [] [] [] []]; reflexivity. Qed.

Lemma toLowerCase_idempotent (s : string) : toLowerCase (toLowerCase s) = toLowerCase s.
Proof.
  induction s as [|c s IH]; [reflexivity|].
  cbn [toLowerCase]. rewrite lower_ascii_idempotent, IH. reflexivity.
Qed.

(** X15: the image test does not see the case of ASCII letters: a name
    and its lower-case form get the same verdict. *)
Theorem X15_isImageFile_ignores_case (filename : string) :
  isImageFile (toLowerCase filename) = isImageFile filename.
Proof.
  unfold isImageFile. rewrite toLowerCase_idempotent. reflexivity.
Qed.

Lemma extension_append_dot (base e : string) :
  extension e = None → extension (base +:+ "." +:+ e) = Some e.
Proof.
  intros He. induction base as [|c base IH].
  - change ("" +:+ "." +:+ e) with (String "."%char e).
    cbn [extension]. rewrite He. reflexivity.
  - change (String c base +:+ "." +:+ e) with (String c (base +:+ "." +:+ e)).
    cbn [extension]. rewrite IH. reflexivity.
Qed.

(** X16: for a name made of any text, a dot, and a last part without a
    dot, the verdict of the image test is decided by the last part
    alone: it is whether its lower-case form is one of the six
    extensions.  What precedes the last dot, other dots included, plays
    no role. *)
Theorem X16_isImageFile_reads_last_segment (base e : string) :
  extension e = None →
  isImageFile (base +:+ "." +:+ e) = includes imageExtensions (toLowerCase e).
Proof.
  intros He.
  rewrite isImageFile_with_dot
    by (rewrite (extension_append_dot base e He); eexists; reflexivity).
  unfold has_image_extension. rewrite (extension_append_dot base e He). reflexivity.
Qed.

Lemma X16_isImageFile_reads_last_segment_witness :
  isImageFile ("holiday.2024.v2" +:+ "." +:+ "JpEg") = true.
Proof.
  rewrite (X16_isImageFile_reads_last_segment "holiday.2024.v2" "JpEg" eq_refl).
  reflexivity.
Defined.

(** X17: splitting at the dots loses nothing: there is always at least
    one segment, no segment contains a dot, and joining the segments
    with dots gives the name back. *)
Theorem X17_split_dot_round_trip (s : string) :
  split_dot s ≠ [] ∧
  Forall (λ seg, extension seg = None) (split_dot s) ∧
  String.concat "." (split_dot s) = s.
Proof.
  induction s as [|c s (Hne & Hseg & Hjoin)].
  - split; [discriminate|]. split; [repeat constructor|reflexivity].
  - cbn [split_dot]. destruct (Ascii.eqb c "."%char) eqn:Hc.
    + apply Ascii.eqb_eq in Hc. subst c.
      split; [discriminate|]. split; [constructor; [reflexivity|exact Hseg]|].
      destruct (split_dot s) as [|seg rest]; [contradiction|].
      cbn [String.concat]. cbn [String.concat] in Hjoin. rewrite Hjoin. reflexivity.
    + destruct (split_dot s) as [|seg rest]; [contradiction|].
      split; [discriminate|]. split.
      * apply Forall_cons in Hseg as [Hs Hrest]. constructor; [|exact Hrest].
        cbn [extension]. rewrite Hs, Hc. reflexivity.
      * destruct rest as [|seg2 rest].
        -- cbn [String.concat] in *. rewrite Hjoin. reflexivity.
        -- cbn [String.concat] in *. rewrite <- Hjoin. reflexivity.
Qed.

(** ** Balance, upload flags, share links *)

(** X18: a balance query never throws and never leaves the loading flag
    on: whatever the client answers, [loadBalance] completes normally
    after exactly one remote call, with [loadingBalance] false, the file
    index untouched, and the balance replaced only by a resolved answer.
    AccountCard and UploadsCard behave alike. *)
Theorem X18_loadBalance_settles account client (w : World) :
  (let r := AccountCard.loadBalance account client w in
   fst r = Normal tt ∧
   (∃ evs, trace (snd r) = (trace w ++ evs)%list ∧
           remote_calls evs = [CallGetBalance account]) ∧
   localStorage (snd r) = localStorage w ∧
   AccountCardState.loadingBalance (accountCard (snd r)) = false ∧
   AccountCardState.balance (accountCard (snd r)) =
     match getBalance client account with
     | inl _ => AccountCardState.balance (accountCard w)
     | inr bal => Some bal
     end) ∧
  (let r := UploadsCard.loadBalance account client w in
   fst r = Normal tt ∧
   (∃ evs, trace (snd r) = (trace w ++ evs)%list ∧
           remote_calls evs = [CallGetBalance account]) ∧
   localStorage (snd r) = localStorage w ∧
   UploadsCardState.loadingBalance (uploadsCard (snd r)) = false ∧
   UploadsCardState.balance (uploadsCard (snd r)) =
     match getBalance client account with
     | inl _ => UploadsCardState.balance (uploadsCard w)
     | inr bal => Some bal
     end).
Proof.
  split.
  - unfold AccountCard.loadBalance, AccountCard.setBalance,
      AccountCard.setLoadingBalance.
    js_simpl. destruct (getBalance client account) as [err|bal]; simpl.
    + split; [reflexivity|]. split; [|repeat split].
      eexists. split; [rewrite <- app_assoc; reflexivity|reflexivity].
    + split; [reflexivity|]. split; [|repeat split].
      eexists. split; reflexivity.
  - unfold UploadsCard.loadBalance, UploadsCard.setBalance,
      UploadsCard.setLoadingBalance.
    js_simpl. destruct (getBalance client account) as [err|bal]; simpl.
    + split; [reflexivity|]. split; [|repeat split].
      eexists. split; [rewrite <- app_assoc; reflexivity|reflexivity].
    + split; [reflexivity|]. split; [|repeat split].
      eexists. split; reflexivity.
Qed.

Lemma progress_reports_last (reports : list Z) (w : World) :
  UploadCard.onProgress_calls reports w =
    (Normal tt,
     with_uploadCard
       {| UploadCardState.uploading := UploadCardState.uploading (uploadCard w);
          UploadCardState.progress :=
            default (UploadCardState.progress (uploadCard w)) (last reports);
          UploadCardState.error := UploadCardState.error (uploadCard w);
          UploadCardState.uploadedFile := UploadCardState.uploadedFile (uploadCard w) |}
       w).
Proof.
  unfold UploadCard.onProgress_calls.
  revert w. induction reports as [|r reports IH]; intros w.
  - destruct w as [? ? ? ? ? ? ? [] ? ? ?]. reflexivity.
  - cbn [for_of]. unfold mbind, Js_bind.
    set (w1 := snd (UploadCard.setProgress r w)).
    change (UploadCard.setProgress r w) with (Normal tt, w1).
    cbv beta iota. rewrite (IH w1), last_cons.
    destruct (last reports); reflexivity.
Qed.

(** X19: after an upload attempt, resolved or rejected, the [uploading]
    flag is off and the progress shown is the last value the client
    reported, or 0 when it reported none; the success panel holds the
    result exactly when the call resolved. *)
Theorem X19_upload_flags account client (file : File) (w : World) :
  let r := UploadCard.handleFileSelect account client (Some file) w in
  let answer := uploadFile client account file (name file) in
  UploadCardState.uploading (uploadCard (snd r)) = false ∧
  UploadCardState.progress (uploadCard (snd r)) = default 0 (last (fst answer)) ∧
  UploadCardState.uploadedFile (uploadCard (snd r)) =
    match snd answer with
    | inl _ => None
    | inr result => Some result
    end.
Proof.
  intros r answer. subst r answer.
  unfold UploadCard.handleFileSelect, UploadCard.uploadFile_call.
  destruct (uploadFile client account file (name file)) as [reports settled].
  unfold UploadCard.setError, UploadCard.setUploading, UploadCard.setUploadedFile,
    UploadCard.setProgress, PipeFileStorage.addFile.
  js_simpl. rewrite progress_reports_last.
  destruct settled as [err|result]; simpl; repeat split.
Qed.

Example upload_progress_shown :
  UploadCardState.progress
    (uploadCard (snd (UploadCard.handleFileSelect alice sample_client (Some photo_file)
                        fresh_world))) = 100 ∧
  UploadCardState.progress
    (uploadCard (snd (UploadCard.handleFileSelect alice failing_client (Some photo_file)
                        fresh_world))) = 50.
Proof. split; reflexivity. Qed.

(** X20: a share request makes exactly one remote call, by file name,
    never touches the file index, and resets the copied marker; when the
    call resolves the file stays selected and the link shown is the
    returned URL; when it is rejected the selection is cleared and the
    link text is left as it was. *)
Theorem X20_share_link_outcomes account client (file : UploadResult) (w : World) :
  let r := FilesGallery.generateShareLink account client file w in
  fst r = Normal tt ∧
  (∃ evs, trace (snd r) = (trace w ++ evs)%list ∧
          remote_calls evs = [CallCreatePublicLink account (fileName file)]) ∧
  localStorage (snd r) = localStorage w ∧
  FilesGalleryState.linkCopied (filesGallery (snd r)) = false ∧
  match createPublicLink client account (fileName file) with
  | inr link =>
      FilesGalleryState.selectedFile (filesGallery (snd r)) = Some file ∧
      FilesGalleryState.shareLink (filesGallery (snd r)) = shareUrl link
  | inl _ =>
      FilesGalleryState.selectedFile (filesGallery (snd r)) = None ∧
      FilesGalleryState.shareLink (filesGallery (snd r))
        = FilesGalleryState.shareLink (filesGallery w)
  end.
Proof.
  intros r. subst r.
  unfold FilesGallery.generateShareLink, FilesGallery.setSelectedFile,
    FilesGallery.setLinkCopied, FilesGallery.setShareLink.
  js_simpl. destruct (createPublicLink client account (fileName file)) as [err|link];
    simpl.
  - split; [reflexivity|]. split; [|repeat split].
    eexists. split; [rewrite <- app_assoc; reflexivity|reflexivity].
  - split; [reflexivity|]. split; [|repeat split].
    eexists. split; reflexivity.
Qed.

(** X21: the remote calls of a gallery delete whose call resolves are
    the delete, by file name, followed by one download per remaining
    stored record that the code takes for an image: a delete costs a
    full round of preview downloads. *)
Theorem X21_delete_then_downloads sdk confirm account client (file : UploadResult)
    (w : World) :
  confirm ("Delete " +:+ fileName file +:+ "?") = true →
  deleteFile client account (fileName file) = inr tt →
  ∃ evs,
    trace (snd (FilesGallery.handleDelete sdk confirm account client file w))
      = (trace w ++ evs)%list ∧
    remote_calls evs =
      CallDeleteFile account (fileName file)
        :: (CallDownloadFile account
              <$> image_names
                    (filter (λ f, fileId f ≠ fileId file)
                       (listing (FilesGallery.fileStorage sdk account) w))).
Proof.
  intros Hc Hdel.
  rewrite (FilesGallery_handleDelete_as_reload _ _ _ _ _ _ Hc Hdel).
  set (key := FilesGallery.fileStorage sdk account).
  destruct (after_removal_fields key account file w) as (HL & _ & _ & HT).
  destruct (loadFiles_remote_calls sdk account client
              (after_removal key account file w)) as (evs & Htr & Hcalls).
  fold key in Hcalls.
  assert (listing key (after_removal key account file w)
          = filter (λ f, fileId f ≠ fileId file) (listing key w)) as Hlist.
  { unfold listing at 1. rewrite HL, lookup_insert_eq. reflexivity. }
  rewrite Hlist in Hcalls. rewrite Htr, HT.
  destruct (FilesGalleryState.imagePreviews (filesGallery w) !! fileId file) as [url|].
  - exists (Remote (CallDeleteFile account (fileName file))
              :: StorageRemove key (fileId file) :: RevokeObjectURL url :: evs).
    split; [rewrite <- app_assoc; reflexivity|].
    rewrite remote_calls_remote, !remote_calls_other by discriminate.
    rewrite Hcalls. reflexivity.
  - exists (Remote (CallDeleteFile account (fileName file))
              :: StorageRemove key (fileId file) :: evs).
    split; [rewrite <- app_assoc; reflexivity|].
    rewrite remote_calls_remote, remote_calls_other by discriminate.
    rewrite Hcalls. reflexivity.
Qed.

Lemma X21_delete_then_downloads_witness :
  ∃ evs,
    trace (snd (FilesGallery.handleDelete sample_sdk always_confirm alice sample_client
                  notes gallery_world))
      = (trace gallery_world ++ evs)%list ∧
    remote_calls evs =
      [CallDeleteFile alice "notes.txt"; CallDownloadFile alice "photo.png";
       CallDownloadFile alice "broken.JPG"].
Proof.
  exact (X21_delete_then_downloads sample_sdk always_confirm alice sample_client notes
           gallery_world eq_refl eq_refl).
Defined.

Lemma X10_reload_reads_only_witness :
  0%nat ∈ objectURLs (snd (FilesGallery.loadFiles sample_sdk alice sample_client
                             gallery_world)) ∧
  ∃ f, f ∈ listing (FilesGallery.fileStorage sample_sdk alice) gallery_world ∧
       fileId f = "id-photo" ∧ isImageFile (fileName f) = true.
Proof.
  pose proof (X10_reload_reads_only sample_sdk alice sample_client gallery_world) as H.
  cbv zeta in H. destruct H as (_ & _ & _ & _ & Hentries).
  exact (Hentries "id-photo" 0%nat eq_refl).
Defined.
